(** * Personalized Calendar API: the calendar service of [main.py]

    A shallow embedding of the calendar routes of [main.py]
    ([create_calendar], [update_calendar_page], [get_calendar]) and of the
    models of [schemas.py], over an explicit model of the document store.

    - Python dictionaries are [gmap string value]; lists are Rocq lists
      read with [!!] and written with [<[i:=x]>].
    - A raised exception is the [Raise] case of [result]; a handler that
      raises leaves the store as it found it, because every write of the
      source is the last statement before [return].
    - [datetime.utcnow()] is an argument of the handler that reads it.
    - [bson.ObjectId] is an external library: parsing an identifier and
      printing one are parameters of the development. *)

From stdpp Require Import gmap strings list fin_maps.
Set Warnings "-register-all".
Open Scope Z_scope.

(** ** Values held in documents and returned as JSON

    The values the calendar routes read and write: null, integers, strings,
    dates, arrays and sub-documents.  Booleans and floating-point numbers,
    which no route of main.py stores, are left out. *)

Inductive value :=
| VNone
| VInt (n : Z)
| VStr (s : string)
| VDatetime (t : Z)
| VList (l : list value)
| VDict (d : gmap string value).

(** [Optional[str]] as a stored value: [None] or the string. *)
Definition of_optional (o : option string) : value :=
  match o with
  | Some s => VStr s
  | None => VNone
  end.

(** ** Exceptions *)

Inductive exn :=
| HTTPException (status_code : Z) (detail : string)
| ValidationError (errors : list string)
| TypeError
| AttributeError
| IndexError
| StoreFailure.

Inductive result (A : Type) :=
| Ok (a : A)
| Raise (e : exn).
Arguments Ok {A} a.
Arguments Raise {A} e.

#[global] Instance result_ret : MRet result := λ A a, Ok a.
#[global] Instance result_bind : MBind result := λ A B k r,
  match r with
  | Ok a => k a
  | Raise e => Raise e
  end.

(** The failure kinds of the specification (section 7), read off the
    exception a handler raises.  The two status-400 failures of the calendar
    routes differ by their detail string. *)
Inductive failure :=
| InvalidField
| InvalidIdentifier
| NotFound
| StoreUnavailable.

Definition failure_of (e : exn) : option failure :=
  match e with
  | ValidationError _ => Some InvalidField
  | HTTPException code detail =>
      if (code =? 400) && String.eqb detail "Month must be 1..12" then Some InvalidField
      else if (code =? 400) && String.eqb detail "Invalid calendar id" then Some InvalidIdentifier
      else if (code =? 404) && String.eqb detail "Calendar not found" then Some NotFound
      else if (code =? 500) && String.eqb detail "Database not available" then Some StoreUnavailable
      else None
  | StoreFailure => Some StoreUnavailable
  | _ => None
  end.

(** ** schemas.py *)

Module CalendarPage.
Record t := mk {
  month : Z;
  image_url : option string;
  note : option string
}.

(** [CalendarPage(month=..., image_url=..., note=...)]: [month] has
    [ge=1, le=12]. *)
Definition new (month : Z) (image_url note : option string) : result t :=
  if (1 <=? month) && (month <=? 12)
  then Ok (mk month image_url note)
  else Raise (ValidationError ["month"%string]).
End CalendarPage.

Module Calendar.
Record t := mk {
  title : string;
  year : Z;
  start_month : Z;
  style : string;
  pages : list CalendarPage.t;
  owner : option string
}.

(** [Calendar(...)]: [year] has [ge=1900, le=3000], [start_month] has
    [ge=1, le=12]; pydantic reports every failing field, in field order. *)
Definition new (title : string) (year start_month : Z) (style : string)
    (pages : list CalendarPage.t) (owner : option string) : result t :=
  let errors :=
    (if (1900 <=? year) && (year <=? 3000) then [] else ["year"%string]) ++
    (if (1 <=? start_month) && (start_month <=? 12) then [] else ["start_month"%string]) in
  match errors with
  | [] => Ok (mk title year start_month style pages owner)
  | _ :: _ => Raise (ValidationError errors)
  end.
End Calendar.

(** ** Request bodies of main.py *)

Module CalendarCreate.
Record t := mk {
  title : string;
  year : Z;
  start_month : Z;
  style : string;
  owner : option string
}.
End CalendarCreate.

Module PageUpdate.
Record t := mk {
  image_url : option string;
  note : option string
}.
End PageUpdate.

(** ** Documents *)

(** Modelled from the spec: database.py is not among the sources.  The
    store persists "the resulting Calendar" (4.2) with the fields of the data
    model (3): a page is the sub-document [{month, image_url, note}], absent
    options stored as null. *)
Definition dump_page (p : CalendarPage.t) : value :=
  VDict (<["month" := VInt (CalendarPage.month p)]>
        (<["image_url" := of_optional (CalendarPage.image_url p)]>
        (<["note" := of_optional (CalendarPage.note p)]> ∅))).

Definition model_dump (c : Calendar.t) : gmap string value :=
  <["title" := VStr (Calendar.title c)]>
  (<["year" := VInt (Calendar.year c)]>
  (<["start_month" := VInt (Calendar.start_month c)]>
  (<["style" := VStr (Calendar.style c)]>
  (<["pages" := VList (dump_page <$> Calendar.pages c)]>
  (<["owner" := of_optional (Calendar.owner c)]> ∅))))).

(** [p.get("month") == month], for an integer [month]: a missing key reads
    as [None], and no string, date, list or dictionary equals an integer. *)
Definition get_eq_int (v : option value) (n : Z) : bool :=
  match v with
  | Some (VInt k) => k =? n
  | _ => false
  end.

(** [next((i for i, p in enumerate(pages) if p.get("month") == month), None)],
    with [enumerate] counting from [i].  The generator stops at the first
    match; an element that is not a dictionary has no [get]. *)
Fixpoint next_index (month : Z) (pages : list value) (i : nat) : result (option nat) :=
  match pages with
  | [] => Ok None
  | VDict p :: rest =>
      if get_eq_int (p !! "month") month then Ok (Some i)
      else next_index month rest (S i)
  | _ :: _ => Raise AttributeError
  end.

(** [doc.get("pages", [])] as the list the handler enumerates and appends
    to.  A string or a dictionary can be enumerated, but its elements have
    no [get] and it has no [append]; the other values cannot be enumerated. *)
Definition as_pages (v : value) : result (list value) :=
  match v with
  | VList l => Ok l
  | VStr _ | VDict _ => Raise AttributeError
  | VNone | VInt _ | VDatetime _ => Raise TypeError
  end.

(** [pages[idx][key] = v] *)
Definition setitem (pages : list value) (idx : nat) (key : string) (v : value)
    : result (list value) :=
  match pages !! idx with
  | Some (VDict p) => Ok (<[idx := VDict (<[key := v]> p)]> pages)
  | Some _ => Raise TypeError
  | None => Raise IndexError
  end.

(** [if x is not None: pages[idx][key] = x] *)
Definition setitem_if (pages : list value) (idx : nat) (key : string)
    (x : option string) : result (list value) :=
  match x with
  | Some s => setitem pages idx key (VStr s)
  | None => Ok pages
  end.

(** The month of a stored page, when it has one. *)
Definition page_month (v : value) : option Z :=
  match v with
  | VDict p =>
      match p !! "month" with
      | Some (VInt n) => Some n
      | _ => None
      end
  | _ => None
  end.

(** At most one page per month value. *)
Definition one_page_per_month (pages : list value) : Prop :=
  NoDup (omap page_month pages).

(** A calendar document has at most one page per month value: its [pages],
    when a list, has. *)
Definition calendar_one_page_per_month (f : gmap string value) : Prop :=
  ∀ ps, f !! "pages" = Some (VList ps) → one_page_per_month ps.

(** [update_calendar_page], lines 135-145, on [pages = doc.get("pages", [])]:
    find the page of the month or append one, then set the supplied fields. *)
Definition upsert_page (month : Z) (payload : PageUpdate.t) (pages : value)
    : result (list value) :=
  pages ← as_pages pages;
  found ← next_index month pages 0;
  let pages :=
    match found with
    | None => pages ++ [VDict {["month" := VInt month]}]
    | Some _ => pages
    end in
  let idx := default (length pages - 1)%nat found in
  pages ← setitem_if pages idx "image_url" (PageUpdate.image_url payload);
  setitem_if pages idx "note" (PageUpdate.note payload).

(** A page with the supplied field set, or as it was. *)
Definition with_field (key : string) (x : option string) (p : gmap string value)
    : gmap string value :=
  match x with
  | Some s => <[key := VStr s]> p
  | None => p
  end.

(** The page [update_calendar_page] leaves for a page [p]. *)
Definition patched (payload : PageUpdate.t) (p : gmap string value) : gmap string value :=
  with_field "note" (PageUpdate.note payload)
    (with_field "image_url" (PageUpdate.image_url payload) p).

(** The document [update_calendar_page] writes back: [$set] of [pages] and
    [updated_at] on the stored fields. *)
Definition written (f : gmap string value) (pages : list value) (utcnow : Z)
    : gmap string value :=
  <["pages" := VList pages]> (<["updated_at" := VDatetime utcnow]> f).

(** The page the loop of lines 91-93 appends at step [i]. *)
Definition page_at (start_month : Z) (i : nat) : CalendarPage.t :=
  CalendarPage.mk (((start_month - 1 + Z.of_nat i) `mod` 12) + 1) None None.

(** The pages of [create_calendar], lines 90-93. *)
Definition initial_pages (start_month : Z) : result (list CalendarPage.t) :=
  mapM (λ i : nat, CalendarPage.new (((start_month - 1 + Z.of_nat i) `mod` 12) + 1) None None)
       (seq 0 12).

(** ** Uploads

    File names, paths and contents are byte strings.  [os.path] is the POSIX
    one.  The file system is a parameter of the handlers: [open_wb fs path
    content] is [with open(path, 'wb') as f: f.write(content)] and
    [path_exists fs path] is [os.path.exists(path)]. *)

(** [os.sep], the character "/", and [os.extsep], the character ".". *)
Definition os_sep : Ascii.ascii := Ascii.ascii_of_nat 47.
Definition os_extsep : Ascii.ascii := Ascii.ascii_of_nat 46.

(** [p.rfind(c)] for a one-character [c]: the last index, or -1. *)
Fixpoint rfind (c : Ascii.ascii) (p : list Ascii.ascii) : Z :=
  match p with
  | [] => -1
  | a :: rest =>
      let k := rfind c rest in
      if 0 <=? k then k + 1 else if Ascii.eqb a c then 0 else -1
  end.

(** The loop of [genericpath._splitext] over [p[sepIndex+1:dotIndex]]: true
    when it meets a character that is not a dot. *)
Fixpoint has_non_dot (slice : list Ascii.ascii) : bool :=
  match slice with
  | [] => false
  | a :: rest => if Ascii.eqb a os_extsep then has_non_dot rest else true
  end.

(** [os.path.splitext(p)] *)
Definition splitext (p : string) : string * string :=
  let l := String.list_ascii_of_string p in
  let sepIndex := rfind os_sep l in
  let dotIndex := rfind os_extsep l in
  if (dotIndex >? sepIndex)
     && has_non_dot (take (Z.to_nat (dotIndex - (sepIndex + 1)))
                          (drop (Z.to_nat (sepIndex + 1)) l))
  then (String.string_of_list_ascii (take (Z.to_nat dotIndex) l),
        String.string_of_list_ascii (drop (Z.to_nat dotIndex) l))
  else (p, EmptyString).

(** [s.endswith(suffix)] *)
Definition endswith (s suffix : string) : bool :=
  String.prefix (String.rev suffix) (String.rev s).

(** [os.path.join(a, b)] *)
Definition join (a b : string) : string :=
  if String.prefix "/" b then b
  else if String.eqb a "" || endswith a "/" then a +:+ b
  else a +:+ "/" +:+ b.

(** [UPLOAD_DIR = os.path.join("uploads")] *)
Definition UPLOAD_DIR : string := "uploads".

Module UploadFile.
Record t := mk {
  filename : option string;
  content_type : option string;
  content : string
}.
End UploadFile.

(** What [get_uploaded_file] returns: [FileResponse(path)]. *)
Inductive response :=
| FileResponse (path : string).

(** [POST /upload]; [stamp] is
    [datetime.utcnow().strftime('%Y%m%d%H%M%S%f')].  A missing content type
    has no [startswith]; a missing file name is not a path. *)
Definition upload_image {FS : Type} (open_wb : FS → string → string → result FS)
    (fs : FS) (stamp : string) (file : UploadFile.t) : result (FS * value) :=
  match UploadFile.content_type file with
  | None => Raise AttributeError
  | Some content_type =>
      if negb (String.prefix "image/" content_type)
      then Raise (HTTPException 400 "Only image files are allowed")
      else
        match UploadFile.filename file with
        | None => Raise TypeError
        | Some filename =>
            let ext := (splitext filename).2 in
            let safe_name := stamp +:+ ext in
            let path := join UPLOAD_DIR safe_name in
            fs' ← open_wb fs path (UploadFile.content file);
            Ok (fs', VDict {["url" := VStr ("/uploads/" +:+ safe_name)]})
        end
  end.

(** [GET /uploads/{filename}] *)
Definition get_uploaded_file {FS : Type} (path_exists : FS → string → bool)
    (fs : FS) (filename : string) : result response :=
  let path := join UPLOAD_DIR filename in
  if negb (path_exists fs path)
  then Raise (HTTPException 404 "File not found")
  else Ok (FileResponse path).

(** A file system for evaluation: the files by the path they were written
    under, every write succeeding. *)
Definition map_open_wb (fs : gmap string string) (path content : string)
    : result (gmap string string) :=
  Ok (<[path := content]> fs).

Definition map_path_exists (fs : gmap string string) (path : string) : bool :=
  bool_decide (is_Some (fs !! path)).

(** ** Diagnostics *)

(** What [db.list_collection_names()] does: the names, or an exception [e],
    given by the characters of [str(e)]. *)
Inductive listing :=
| Names (collections : list string)
| Failed (message : list string).

(** The handle [db] as [test_database] uses it: [name] is the attribute
    [getattr] looks up, when there is one. *)
Module Handle.
Record t := mk {
  name : option value;
  list_collection_names : listing
}.
End Handle.

(** The truth value of [os.getenv(key)]: set, and not the empty string. *)
Definition getenv_true (environ : gmap string string) (key : string) : bool :=
  match environ !! key with
  | Some v => negb (String.eqb v "")
  | None => false
  end.

(** [GET /test].  Nothing in the outer [try] raises outside the inner one,
    so the outer handler has no case here. *)
Definition test_database (db : option Handle.t) (environ : gmap string string)
    : gmap string value :=
  let response : gmap string value :=
    <["backend" := VStr "✅ Running"]>
    (<["database" := VStr "❌ Not Available"]>
    (<["database_url" := VNone]>
    (<["database_name" := VNone]>
    (<["connection_status" := VStr "Not Connected"]>
    (<["collections" := VList []]> ∅))))) in
  let response :=
    match db with
    | Some db =>
        let response := <["database" := VStr "✅ Available"]> response in
        let response := <["database_url" := VStr "✅ Set"]> response in
        let response :=
          <["database_name" := default (VStr "✅ Connected") (Handle.name db)]> response in
        let response := <["connection_status" := VStr "Connected"]> response in
        match Handle.list_collection_names db with
        | Names collections =>
            let response :=
              <["collections" := VList (VStr <$> take 10 collections)]> response in
            <["database" := VStr "✅ Connected & Working"]> response
        | Failed message =>
            <["database" :=
                VStr ("⚠️  Connected but Error: " +:+ foldr String.append "" (take 50 message))]>
              response
        end
    | None => <["database" := VStr "⚠️  Available but not initialized"]> response
    end in
  let response :=
    <["database_url" :=
        VStr (if getenv_true environ "DATABASE_URL" then "✅ Set" else "❌ Not Set")]>
      response in
  <["database_name" :=
      VStr (if getenv_true environ "DATABASE_NAME" then "✅ Set" else "❌ Not Set")]>
    response.

(** ** An instance of the identifier parameters, for evaluation

    The instance takes a string of 24 hexadecimal digits as an identifier,
    printed as typed, and refuses every other string.  [bson.ObjectId]
    prints lower-case digits and tolerates white space among the 24
    characters; the two agree on strings of 24 lower-case digits and on
    strings of another length, the only inputs the instance is run on. *)
Definition is_hex_digit (a : Ascii.ascii) : bool :=
  let n := Ascii.nat_of_ascii a in
  ((48 <=? n) && (n <=? 57) || (97 <=? n) && (n <=? 102) || (65 <=? n) && (n <=? 70))%nat.

Definition hex_ObjectId (s : string) : option string :=
  if (String.length s =? 24)%nat && forallb is_hex_digit (String.list_ascii_of_string s)
  then Some s else None.

Definition hex_str (o : string) : string := o.

(** ** A sample store, for evaluation

    One calendar, "Team 2025", that starts in April and whose April page has
    an image; and a second one that holds the April page only. *)
Definition team_id : string := "64b7f0c2a1d3e4f5a6b7c8d9".
Definition sparse_id : string := "64b7f0c2a1d3e4f5a6b7c8da".

Definition team_pages : list CalendarPage.t :=
  CalendarPage.mk 4 (Some "/uploads/x.jpg"%string) None :: (page_at 4 <$> seq 1 11).

Definition team_calendar : gmap string value :=
  model_dump (Calendar.mk "Team 2025" 2025 4 "classic" team_pages None).

Definition sparse_calendar : gmap string value :=
  model_dump
    (Calendar.mk "Sparse" 2025 4 "classic" [CalendarPage.mk 4 None None] None).

Definition sample_db : gmap string (gmap string (gmap string value)) :=
  {["calendar" := <[team_id := team_calendar]> {[sparse_id := sparse_calendar]}]}.

(** The sample store after a note "July" for the sparse calendar, written at
    time 1735689600. *)
Definition july_pages : list value :=
  [dump_page (CalendarPage.mk 4 None None);
   VDict (<["note" := VStr "July"]> {["month" := VInt 7]})].

Definition july_db : gmap string (gmap string (gmap string value)) :=
  {["calendar" :=
      <[team_id := team_calendar]>
        {[sparse_id := written sparse_calendar july_pages 1735689600]}]}.

(** An upload: a JPEG whose client file name has directories and two
    dots. *)
Definition cat_upload : UploadFile.t :=
  UploadFile.mk (Some "../../etc/cat.photo.JPG"%string) (Some "image/jpeg"%string)
    "bytes".

Definition cat_stamp : string := "20250101120000000000".

(** A store that holds, beside the sparse calendar, a calendar with two
    April pages. *)
Definition twice_id : string := "64b7f0c2a1d3e4f5a6b7c8dc".

Definition twice_calendar : gmap string value :=
  model_dump
    (Calendar.mk "Twice" 2025 4 "classic"
       [CalendarPage.mk 4 None None; CalendarPage.mk 4 None None] None).

Definition mixed_db : gmap string (gmap string (gmap string value)) :=
  {["calendar" := <[twice_id := twice_calendar]> {[sparse_id := sparse_calendar]}]}.

(** The identifier generator of the sample store: a fixed fresh one. *)
Definition sample_new_id (coll : gmap string (gmap string value)) : string :=
  "64b7f0c2a1d3e4f5a6b7c8db".

(** Modelled from the spec: database.py is not among the sources.
    [get_documents(collection_name, filter, limit)] on the sample store is
    the adapter's [find(collection, filter, limit)] (2) with the empty
    filter: the documents of the collection, truncated to [limit] (4.3).
    It is used only to run [list_calendars] on the sample store. *)
Definition sample_get_documents (db : option (gmap string (gmap string (gmap string value))))
    (collection_name : string) (filter : gmap string value) (limit : Z)
    : result (list (option string * gmap string value)) :=
  match db with
  | None => Raise StoreFailure
  | Some db =>
      Ok (take (Z.to_nat limit)
            ((λ kv, (Some kv.1, kv.2)) <$> map_to_list (default ∅ (db !! collection_name))))
  end.

(** ** The store and the handlers of main.py *)

Section service.
Context `{Countable OID}.

(** [ObjectId(calendar_id)]: [None] when bson raises [InvalidId]. *)
Variable ObjectId : string → option OID.
(** [str(oid)] *)
Variable str : OID → string.
(** The identifier the store assigns to the next document of a
    collection. *)
Variable new_id : gmap OID (gmap string value) → OID.

(** A collection holds documents by [_id]; a database holds collections
    by name. *)
Abbreviation collection := (gmap OID (gmap string value)).
Abbreviation Database := (gmap string collection).

(** A document as [find_one] returns it: the dictionary with its [_id]
    key, an [ObjectId], kept apart from the other keys. *)
Record document := mkdoc {
  _id : OID;
  fields : gmap string value
}.

(** [db[name]] *)
Definition getitem (db : Database) (name : string) : collection :=
  default ∅ (db !! name).

(** [coll.find_one({"_id": oid})] *)
Definition find_one (coll : collection) (oid : OID) : option document :=
  mkdoc oid <$> coll !! oid.

(** [coll.update_one({"_id": oid}, {"$set": set})] *)
Definition update_one (coll : collection) (oid : OID) (set : gmap string value) : collection :=
  alter (λ f, set ∪ f) oid coll.

(** Modelled from the spec: database.py is not among the sources.
    [create_document(collection_name, data)] is the adapter's
    [insert(collection, document) -> id] (2): one insert of the calendar
    under an identifier the store assigns, returned as a string; an
    unreachable store is a failure of the call (4.2). *)
Definition create_document (db : option Database) (collection_name : string)
    (data : Calendar.t) : result (Database * string) :=
  match db with
  | None => Raise StoreFailure
  | Some db =>
      let coll := getitem db collection_name in
      let oid := new_id coll in
      Ok (<[collection_name := <[oid := model_dump data]> coll]> db, str oid)
  end.

(** [create_calendar], lines 90-101: the [Calendar] handed to the store. *)
Definition new_calendar (payload : CalendarCreate.t) : result Calendar.t :=
  pages ← initial_pages (CalendarCreate.start_month payload);
  Calendar.new (CalendarCreate.title payload) (CalendarCreate.year payload)
    (CalendarCreate.start_month payload) (CalendarCreate.style payload)
    pages (CalendarCreate.owner payload).

(** [POST /calendars] *)
Definition create_calendar (db : option Database) (payload : CalendarCreate.t)
    : result (Database * value) :=
  cal ← new_calendar payload;
  '(db', inserted_id) ← create_document db "calendar" cal;
  Ok (db', VDict {["id" := VStr inserted_id]}).

(** [PUT /calendars/{calendar_id}/pages/{month}] *)
Definition update_calendar_page (db : option Database) (utcnow : Z)
    (calendar_id : string) (month : Z) (payload : PageUpdate.t)
    : result (Database * value) :=
  if (month <? 1) || (month >? 12)
  then Raise (HTTPException 400 "Month must be 1..12")
  else
    match db with
    | None => Raise (HTTPException 500 "Database not available")
    | Some db =>
        match ObjectId calendar_id with
        | None => Raise (HTTPException 400 "Invalid calendar id")
        | Some oid =>
            match find_one (getitem db "calendar") oid with
            | None => Raise (HTTPException 404 "Calendar not found")
            | Some doc =>
                pages ← upsert_page month payload (default (VList []) (fields doc !! "pages"));
                Ok (<["calendar" :=
                       update_one (getitem db "calendar") oid
                         (<["pages" := VList pages]>
                          (<["updated_at" := VDatetime utcnow]> ∅))]> db,
                    VDict {["status" := VStr "ok"]})
            end
        end
    end.

(** [GET /calendars/{calendar_id}]: [doc["id"] = str(doc.pop("_id"))]. *)
Definition get_calendar (db : option Database) (calendar_id : string) : result value :=
  match db with
  | None => Raise (HTTPException 500 "Database not available")
  | Some db =>
      match ObjectId calendar_id with
      | None => Raise (HTTPException 400 "Invalid calendar id")
      | Some oid =>
          match find_one (getitem db "calendar") oid with
          | None => Raise (HTTPException 404 "Calendar not found")
          | Some doc => Ok (VDict (<["id" := VStr (str (_id doc))]> (fields doc)))
          end
      end
  end.

(** [get_documents(collection_name, filter, limit)] of database.py, which
    is not among the sources: the documents it returns, each a dictionary
    with its [_id], when it has one, kept apart from the other keys. *)
Variable get_documents :
  option Database → string → gmap string value → Z →
  result (list (option OID * gmap string value)).

(** [GET /calendars]: [if "_id" in d: d["id"] = str(d.pop("_id"))] on every
    document. *)
Definition list_calendars (db : option Database) (limit : Z) : result value :=
  docs ← get_documents db "calendar" ∅ limit;
  Ok (VList ((λ d, VDict match d.1 with
                         | Some oid => <["id" := VStr (str oid)]> d.2
                         | None => d.2
                         end) <$> docs)).

(** The store a handler leaves behind: what it wrote, or the store it was
    given when it raised. *)
Definition state_after {A} (db : option Database) (r : result (Database * A))
    : option Database :=
  match r with
  | Ok (db', _) => Some db'
  | Raise _ => db
  end.

(** The [pages] field of the calendar [oid], when there is one. *)
Definition pages_of (db : option Database) (oid : OID) : option value :=
  db ≫= λ d, getitem d "calendar" !! oid ≫= λ f, f !! "pages".

(** ** Finding a page *)

Lemma next_index_found month ps i j :
  next_index month ps i = Ok (Some j) →
  (i ≤ j)%nat ∧
  ∃ p, ps !! (j - i)%nat = Some (VDict p) ∧ get_eq_int (p !! "month") month = true.
Proof.
  revert i. induction ps as [|v ps IH]; intros i Hn; simpl in Hn; [done|].
  destruct v as [| | | | |p]; try done.
  destruct (get_eq_int (p !! "month") month) eqn:Hm.
  - injection Hn as <-. split; [lia|]. exists p. by rewrite Nat.sub_diag.
  - destruct (IH _ Hn) as (Hle & q & Hq & Hqm). split; [lia|].
    exists q. split; [|done].
    replace (j - i)%nat with (S (j - S i)) by lia. done.
Qed.

Lemma next_index_first month ps i j k v :
  next_index month ps i = Ok (Some j) → (k < j - i)%nat → ps !! k = Some v →
  ∃ p, v = VDict p ∧ get_eq_int (p !! "month") month = false.
Proof.
  revert i k. induction ps as [|w ps IH]; intros i k Hn Hk Hv; simpl in Hn; [done|].
  destruct w as [| | | | |p]; try done.
  destruct (get_eq_int (p !! "month") month) eqn:Hm.
  - injection Hn as <-. lia.
  - destruct k as [|k]; simpl in Hv.
    + injection Hv as <-. by exists p.
    + apply (IH (S i) k); [done|lia|done].
Qed.

Lemma next_index_missing month ps i v :
  next_index month ps i = Ok None → v ∈ ps →
  ∃ p, v = VDict p ∧ get_eq_int (p !! "month") month = false.
Proof.
  revert i. induction ps as [|w ps IH]; intros i Hn Hv; [by apply elem_of_nil in Hv|].
  simpl in Hn. destruct w as [| | | | |p]; try done.
  destruct (get_eq_int (p !! "month") month) eqn:Hm; [done|].
  apply elem_of_cons in Hv as [->|Hv]; [by exists p|by eapply IH].
Qed.

Lemma next_index_insert month ps i j p' :
  next_index month ps i = Ok (Some j) →
  get_eq_int (p' !! "month") month = true →
  next_index month (<[(j - i)%nat := VDict p']> ps) i = Ok (Some j).
Proof.
  revert i. induction ps as [|v ps IH]; intros i Hn Hp; simpl in Hn; [done|].
  destruct v as [| | | | |p]; try done.
  destruct (get_eq_int (p !! "month") month) eqn:Hm.
  - injection Hn as <-. rewrite Nat.sub_diag. simpl. by rewrite Hp.
  - destruct (next_index_found _ _ _ _ Hn) as [Hle _].
    replace (j - i)%nat with (S (j - S i)) by lia. simpl. rewrite Hm. by apply IH.
Qed.

Lemma next_index_app month ps i p' :
  next_index month ps i = Ok None →
  get_eq_int (p' !! "month") month = true →
  next_index month (ps ++ [VDict p']) i = Ok (Some (i + length ps)%nat).
Proof.
  revert i. induction ps as [|v ps IH]; intros i Hn Hp; simpl in *.
  - rewrite Hp. by rewrite Nat.add_0_r.
  - destruct v as [| | | | |p]; try done.
    destruct (get_eq_int (p !! "month") month) eqn:Hm; [done|].
    rewrite (IH _ Hn Hp). do 2 f_equal. lia.
Qed.

Lemma get_eq_int_page_month p month :
  get_eq_int (p !! "month") month = true ↔ page_month (VDict p) = Some month.
Proof.
  unfold get_eq_int, page_month.
  destruct (p !! "month") as [[| k | | | |]|]; try (split; done).
  rewrite Z.eqb_eq. split; congruence.
Qed.

(** ** Setting the supplied fields *)

Lemma with_field_lookup_ne key x p k : k ≠ key → with_field key x p !! k = p !! k.
Proof. intros Hk. destruct x as [s|]; simpl; [by rewrite lookup_insert_ne|done]. Qed.

Lemma with_field_lookup key x p :
  with_field key x p !! key = match x with Some s => Some (VStr s) | None => p !! key end.
Proof. destruct x as [s|]; simpl; [by rewrite lookup_insert_eq|done]. Qed.

Lemma with_field_idemp key x p : with_field key x (with_field key x p) = with_field key x p.
Proof. destruct x as [s|]; simpl; [by rewrite insert_insert_eq|done]. Qed.

Lemma with_field_comm k1 k2 x1 x2 p :
  k1 ≠ k2 →
  with_field k1 x1 (with_field k2 x2 p) = with_field k2 x2 (with_field k1 x1 p).
Proof. intros Hk. destruct x1, x2; simpl; try done. by rewrite insert_insert_ne. Qed.

Lemma patched_lookup_ne payload p k :
  k ≠ "image_url" → k ≠ "note" → patched payload p !! k = p !! k.
Proof. intros H1 H2. unfold patched. by rewrite !with_field_lookup_ne. Qed.

Lemma patched_image_url payload p :
  patched payload p !! "image_url" =
    match PageUpdate.image_url payload with
    | Some s => Some (VStr s)
    | None => p !! "image_url"
    end.
Proof. unfold patched. by rewrite with_field_lookup_ne, with_field_lookup. Qed.

Lemma patched_note payload p :
  patched payload p !! "note" =
    match PageUpdate.note payload with
    | Some s => Some (VStr s)
    | None => p !! "note"
    end.
Proof.
  unfold patched. rewrite with_field_lookup.
  destruct (PageUpdate.note payload); [done|]. by rewrite with_field_lookup_ne.
Qed.

Lemma patched_idemp payload p : patched payload (patched payload p) = patched payload p.
Proof.
  unfold patched.
  rewrite (with_field_comm "image_url" "note") by done.
  by rewrite !with_field_idemp.
Qed.

Lemma patched_page_month payload p :
  page_month (VDict (patched payload p)) = page_month (VDict p).
Proof. unfold page_month. by rewrite patched_lookup_ne. Qed.

Lemma setitem_if_dict ps idx p key x :
  ps !! idx = Some (VDict p) →
  setitem_if ps idx key x = Ok (<[idx := VDict (with_field key x p)]> ps).
Proof.
  intros Hp. destruct x as [s|]; simpl.
  - unfold setitem. by rewrite Hp.
  - by rewrite list_insert_id.
Qed.

(** ** The upsert of a page *)

Lemma upsert_page_dict ps idx p payload :
  ps !! idx = Some (VDict p) →
  (pages ← setitem_if ps idx "image_url" (PageUpdate.image_url payload);
   setitem_if pages idx "note" (PageUpdate.note payload))
  = Ok (<[idx := VDict (patched payload p)]> ps).
Proof.
  intros Hp. rewrite (setitem_if_dict _ _ _ _ _ Hp). simpl.
  erewrite setitem_if_dict.
  - by rewrite list_insert_insert_eq.
  - apply list_lookup_insert_eq. by eapply lookup_lt_Some.
Qed.

Lemma upsert_page_found month payload ps idx :
  next_index month ps 0 = Ok (Some idx) →
  ∃ p, ps !! idx = Some (VDict p) ∧ get_eq_int (p !! "month") month = true ∧
       upsert_page month payload (VList ps)
       = Ok (<[idx := VDict (patched payload p)]> ps).
Proof.
  intros Hn. destruct (next_index_found _ _ _ _ Hn) as (_ & p & Hp & Hm).
  rewrite Nat.sub_0_r in Hp. exists p. split; [done|]. split; [done|].
  unfold upsert_page. simpl. rewrite Hn. simpl. by apply upsert_page_dict.
Qed.

Lemma upsert_page_missing month payload ps :
  next_index month ps 0 = Ok None →
  upsert_page month payload (VList ps)
  = Ok (ps ++ [VDict (patched payload {["month" := VInt month]})]).
Proof.
  intros Hn. unfold upsert_page. simpl. rewrite Hn. simpl.
  rewrite (upsert_page_dict _ _ {["month" := VInt month]}).
  - f_equal. rewrite length_app. simpl.
    replace (length ps + 1 - 1)%nat with (length ps + 0)%nat by lia.
    by rewrite insert_app_r.
  - rewrite length_app. simpl.
    replace (length ps + 1 - 1)%nat with (length ps + 0)%nat by lia.
    by rewrite lookup_app_r, Nat.add_0_r, Nat.sub_diag by lia.
Qed.

(** A second upsert of the same month with the same payload finds the page
    the first one left and leaves it as it is. *)
Lemma upsert_page_idemp month payload v ps' :
  upsert_page month payload v = Ok ps' →
  upsert_page month payload (VList ps') = Ok ps'.
Proof.
  intros Hu. destruct v as [| | | |ps|]; try done.
  destruct (next_index month ps 0) as [[idx|]|e] eqn:Hn.
  - destruct (upsert_page_found _ payload _ _ Hn) as (p & Hp & Hm & Hu').
    rewrite Hu' in Hu. injection Hu as <-.
    assert (Hn' : next_index month (<[idx := VDict (patched payload p)]> ps) 0
                  = Ok (Some idx)).
    { rewrite <- (Nat.sub_0_r idx) at 1. apply next_index_insert; [done|].
      by rewrite patched_lookup_ne. }
    destruct (upsert_page_found _ payload _ _ Hn') as (q & Hq & _ & ->).
    rewrite list_lookup_insert_eq in Hq by (by eapply lookup_lt_Some).
    injection Hq as <-.
    by rewrite list_insert_insert_eq, patched_idemp.
  - rewrite (upsert_page_missing _ _ _ Hn) in Hu. injection Hu as <-.
    set (p := patched payload {["month" := VInt month]}).
    assert (Hm : get_eq_int (p !! "month") month = true).
    { unfold p. rewrite patched_lookup_ne by done.
      rewrite lookup_singleton_eq. simpl. apply Z.eqb_refl. }
    pose proof (next_index_app _ _ _ _ Hn Hm) as Hn'. simpl in Hn'.
    destruct (upsert_page_found _ payload _ _ Hn') as (q & Hq & _ & ->).
    rewrite lookup_app_r, Nat.sub_diag in Hq by lia. injection Hq as <-.
    replace (length ps) with (length ps + 0)%nat at 1 by lia.
    rewrite insert_app_r. simpl. unfold p. by rewrite patched_idemp.
  - unfold upsert_page in Hu. simpl in Hu. rewrite Hn in Hu. done.
Qed.

(** ** The invariant under the upsert *)

Lemma omap_cons_eq {A B} (f : A → option B) (x : A) (l : list A) :
  omap f (x :: l) = match f x with Some y => y :: omap f l | None => omap f l end.
Proof. done. Qed.

Lemma omap_page_month_insert (ps : list value) (idx : nat) v w :
  ps !! idx = Some v → page_month w = page_month v →
  omap page_month (<[idx := w]> ps) = omap page_month ps.
Proof.
  revert idx. induction ps as [|u ps IH]; intros [|idx] Hv Hw; try done.
  - injection Hv as ->. cbn. by rewrite Hw.
  - cbn. destruct (page_month u); [f_equal|]; apply (IH idx Hv Hw).
Qed.

Lemma next_index_month_fresh month ps i :
  next_index month ps i = Ok None → month ∉ omap page_month ps.
Proof.
  intros Hn Hin. apply list_elem_of_omap in Hin as (v & Hv & Hm).
  destruct (next_index_missing _ _ _ _ Hn Hv) as (p & -> & Hp).
  apply get_eq_int_page_month in Hm. congruence.
Qed.

Lemma upsert_page_one_page_per_month month payload ps ps' :
  one_page_per_month ps →
  upsert_page month payload (VList ps) = Ok ps' →
  one_page_per_month ps'.
Proof.
  unfold one_page_per_month. intros Hnd Hu.
  destruct (next_index month ps 0) as [[idx|]|e] eqn:Hn.
  - destruct (upsert_page_found _ payload _ _ Hn) as (p & Hp & _ & Hu').
    rewrite Hu' in Hu. injection Hu as <-.
    by rewrite (omap_page_month_insert _ _ _ _ Hp (patched_page_month payload p)).
  - rewrite (upsert_page_missing _ _ _ Hn) in Hu. injection Hu as <-.
    assert (Hs : ∀ x, omap page_month [x]
                      = match page_month x with Some y => [y] | None => [] end) by done.
    rewrite omap_app, Hs, patched_page_month. unfold page_month.
    rewrite lookup_singleton_eq.
    apply NoDup_app. split; [done|]. split; [|apply NoDup_singleton].
    intros m Hm Hin. apply list_elem_of_singleton in Hin as ->.
    by apply (next_index_month_fresh _ _ _ Hn).
  - unfold upsert_page in Hu. simpl in Hu. by rewrite Hn in Hu.
Qed.

(** ** The store *)

Lemma getitem_insert (db : Database) name coll :
  getitem (<[name := coll]> db) name = coll.
Proof. unfold getitem. by rewrite lookup_insert_eq. Qed.

Lemma update_one_found (coll : collection) oid set f :
  coll !! oid = Some f → update_one coll oid set = <[oid := set ∪ f]> coll.
Proof.
  intros Hf. unfold update_one. apply map_eq. intros o.
  destruct (decide (o = oid)) as [->|Hne].
  - by rewrite lookup_alter_eq, lookup_insert_eq, Hf.
  - by rewrite lookup_alter_ne, lookup_insert_ne.
Qed.

Lemma set_union_written f pages utcnow :
  <["pages" := VList pages]> (<["updated_at" := VDatetime utcnow]> ∅) ∪ f
  = written f pages utcnow.
Proof. unfold written. by rewrite <- !insert_union_l, (left_id_L ∅ (∪)). Qed.

Lemma written_written f ps1 t1 ps2 t2 :
  written (written f ps1 t1) ps2 t2 = written f ps2 t2.
Proof.
  unfold written. apply map_eq. intros k.
  destruct (decide (k = "pages")) as [->|Hp]; [by rewrite !lookup_insert_eq|].
  rewrite !(lookup_insert_ne _ "pages") by done.
  destruct (decide (k = "updated_at")) as [->|Hu]; [by rewrite !lookup_insert_eq|].
  by rewrite !lookup_insert_ne by done.
Qed.

Lemma update_calendar_page_ok (db : Database) utcnow calendar_id month payload oid f ps' :
  1 ≤ month ≤ 12 →
  ObjectId calendar_id = Some oid →
  getitem db "calendar" !! oid = Some f →
  upsert_page month payload (default (VList []) (f !! "pages")) = Ok ps' →
  update_calendar_page (Some db) utcnow calendar_id month payload
  = Ok (<["calendar" := <[oid := written f ps' utcnow]> (getitem db "calendar")]> db,
        VDict {["status" := VStr "ok"]}).
Proof.
  intros Hm Hid Hf Hu. unfold update_calendar_page.
  destruct ((month <? 1) || (month >? 12)) eqn:Hr; [lia|].
  rewrite Hid. unfold find_one. rewrite Hf. simpl. rewrite Hu. simpl.
  by rewrite (update_one_found _ _ _ _ Hf), set_union_written.
Qed.

Lemma update_calendar_page_raise_upsert (db : Database) utcnow calendar_id month payload oid f e :
  1 ≤ month ≤ 12 →
  ObjectId calendar_id = Some oid →
  getitem db "calendar" !! oid = Some f →
  upsert_page month payload (default (VList []) (f !! "pages")) = Raise e →
  update_calendar_page (Some db) utcnow calendar_id month payload = Raise e.
Proof.
  intros Hm Hid Hf Hu. unfold update_calendar_page.
  destruct ((month <? 1) || (month >? 12)) eqn:Hr; [lia|].
  rewrite Hid. unfold find_one. rewrite Hf. simpl. by rewrite Hu.
Qed.

(** ** Building a calendar *)

Lemma mapM_Ok {A B} (f : A → result B) (g : A → B) (l : list A) :
  (∀ x, x ∈ l → f x = Ok (g x)) → mapM f l = Ok (g <$> l).
Proof.
  induction l as [|x l IH]; intros Hf; [done|].
  simpl. rewrite (Hf x) by apply list_elem_of_here. simpl.
  rewrite IH; [done|]. intros y Hy. apply Hf. by apply list_elem_of_further.
Qed.

Lemma initial_pages_Ok start_month :
  initial_pages start_month = Ok (page_at start_month <$> seq 0 12).
Proof.
  unfold initial_pages. apply mapM_Ok. intros i _.
  unfold CalendarPage.new, page_at.
  pose proof (Z.mod_pos_bound (start_month - 1 + Z.of_nat i) 12).
  destruct ((1 <=? _) && (_ <=? 12)) eqn:Hr; [done|lia].
Qed.

Lemma new_calendar_Ok payload :
  1900 ≤ CalendarCreate.year payload ≤ 3000 →
  1 ≤ CalendarCreate.start_month payload ≤ 12 →
  new_calendar payload
  = Ok (Calendar.mk (CalendarCreate.title payload) (CalendarCreate.year payload)
          (CalendarCreate.start_month payload) (CalendarCreate.style payload)
          (page_at (CalendarCreate.start_month payload) <$> seq 0 12)
          (CalendarCreate.owner payload)).
Proof.
  intros Hy Hs. unfold new_calendar. rewrite initial_pages_Ok. simpl.
  unfold Calendar.new.
  destruct ((1900 <=? _) && (_ <=? 3000)) eqn:Hyb; [|lia].
  destruct ((1 <=? _) && (_ <=? 12)) eqn:Hsb; [done|lia].
Qed.

Lemma new_calendar_Raise payload :
  CalendarCreate.year payload < 1900 ∨ 3000 < CalendarCreate.year payload ∨
  CalendarCreate.start_month payload < 1 ∨ 12 < CalendarCreate.start_month payload →
  ∃ errors, new_calendar payload = Raise (ValidationError errors).
Proof.
  intros Hr. unfold new_calendar. rewrite initial_pages_Ok. simpl.
  unfold Calendar.new.
  destruct ((1900 <=? _) && (_ <=? 3000)) eqn:Hyb;
    destruct ((1 <=? _) && (_ <=? 12)) eqn:Hsb; simpl; eauto; lia.
Qed.

Lemma page_at_inj start_month (i j : nat) :
  (i < 12)%nat → (j < 12)%nat →
  CalendarPage.month (page_at start_month i) = CalendarPage.month (page_at start_month j) →
  i = j.
Proof. unfold page_at. simpl. intros Hi Hj Hm. Z.div_mod_to_equations. lia. Qed.

Lemma dump_page_month p : page_month (dump_page p) = Some (CalendarPage.month p).
Proof. unfold page_month, dump_page. by rewrite lookup_insert_eq. Qed.

Lemma initial_months_NoDup start_month :
  NoDup (CalendarPage.month <$> (page_at start_month <$> seq 0 12)).
Proof.
  rewrite <- list_fmap_compose. apply NoDup_fmap_2_strong; [|apply NoDup_seq].
  intros i j Hi Hj. apply elem_of_seq in Hi, Hj. apply page_at_inj; lia.
Qed.

Lemma omap_page_month_dump (l : list CalendarPage.t) :
  omap page_month (dump_page <$> l) = CalendarPage.month <$> l.
Proof.
  induction l as [|p l IH]; [done|].
  rewrite !fmap_cons, omap_cons_eq, dump_page_month. f_equal. apply IH.
Qed.

Lemma update_calendar_page_bad_month (db : option Database) utcnow calendar_id month payload :
  month < 1 ∨ 12 < month →
  update_calendar_page db utcnow calendar_id month payload
  = Raise (HTTPException 400 "Month must be 1..12").
Proof.
  intros Hm. unfold update_calendar_page.
  destruct ((month <? 1) || (month >? 12)) eqn:Hr; [done|lia].
Qed.

Lemma update_calendar_page_Ok_inv (db : Database) utcnow calendar_id month payload db' r :
  update_calendar_page (Some db) utcnow calendar_id month payload = Ok (db', r) →
  ∃ oid f ps',
    1 ≤ month ≤ 12 ∧ ObjectId calendar_id = Some oid ∧
    getitem db "calendar" !! oid = Some f ∧
    upsert_page month payload (default (VList []) (f !! "pages")) = Ok ps' ∧
    db' = <["calendar" := <[oid := written f ps' utcnow]> (getitem db "calendar")]> db ∧
    r = VDict {["status" := VStr "ok"]}.
Proof.
  intros Hr.
  destruct (decide (1 ≤ month ≤ 12)) as [Hm|Hm].
  2:{ rewrite update_calendar_page_bad_month in Hr by lia. done. }
  destruct (ObjectId calendar_id) as [oid|] eqn:Hid.
  2:{ unfold update_calendar_page in Hr.
      destruct ((month <? 1) || (month >? 12)); [done|]. by rewrite Hid in Hr. }
  destruct (getitem db "calendar" !! oid) as [f|] eqn:Hf.
  2:{ unfold update_calendar_page, find_one in Hr.
      destruct ((month <? 1) || (month >? 12)); [done|]. by rewrite Hid, Hf in Hr. }
  destruct (upsert_page month payload (default (VList []) (f !! "pages")))
    as [ps'|e] eqn:Hu.
  2:{ by rewrite (update_calendar_page_raise_upsert _ _ _ _ _ _ _ _ Hm Hid Hf Hu) in Hr. }
  rewrite (update_calendar_page_ok _ _ _ _ _ _ _ _ Hm Hid Hf Hu) in Hr.
  injection Hr as <- <-. by exists oid, f, ps'.
Qed.

Lemma new_calendar_pages payload cal :
  new_calendar payload = Ok cal →
  Calendar.pages cal = page_at (CalendarCreate.start_month payload) <$> seq 0 12.
Proof.
  unfold new_calendar. rewrite initial_pages_Ok. simpl. unfold Calendar.new.
  destruct (_ ++ _); [|done]. by intros [= <-].
Qed.

Lemma new_calendar_one_page_per_month payload cal :
  new_calendar payload = Ok cal →
  one_page_per_month (dump_page <$> Calendar.pages cal).
Proof.
  intros Hc. unfold one_page_per_month.
  rewrite omap_page_month_dump, (new_calendar_pages _ _ Hc).
  apply initial_months_NoDup.
Qed.

Lemma model_dump_pages cal :
  model_dump cal !! "pages" = Some (VList (dump_page <$> Calendar.pages cal)).
Proof. unfold model_dump. by rewrite !lookup_insert_ne, lookup_insert_eq by done. Qed.

(** ** The claims *)

(** C1. For a valid creation request (year in [1900,3000], start_month in
    [1,12]) [create_calendar] builds exactly 12 pages; the page at position
    [i] has month [((start_month - 1 + i) mod 12) + 1] and neither image nor
    note; the months are 1..12 rotated to start at [start_month], hence a
    permutation of 1..12; and with a reachable store this calendar is what
    the handler inserts, under the identifier it returns. *)
Theorem create_calendar_twelve_pages (payload : CalendarCreate.t) :
  1900 ≤ CalendarCreate.year payload ≤ 3000 →
  1 ≤ CalendarCreate.start_month payload ≤ 12 →
  ∃ cal,
    new_calendar payload = Ok cal ∧
    length (Calendar.pages cal) = 12%nat ∧
    (∀ i : nat, (i < 12)%nat →
       Calendar.pages cal !! i
       = Some (CalendarPage.mk
                 (((CalendarCreate.start_month payload - 1 + Z.of_nat i) `mod` 12) + 1)
                 None None)) ∧
    CalendarPage.month <$> Calendar.pages cal
      = rotate (Z.to_nat (CalendarCreate.start_month payload - 1)) (seqZ 1 12) ∧
    CalendarPage.month <$> Calendar.pages cal ≡ₚ seqZ 1 12 ∧
    ∀ db : Database,
      let coll := getitem db "calendar" in
      create_calendar (Some db) payload
      = Ok (<["calendar" := <[new_id coll := model_dump cal]> coll]> db,
            VDict {["id" := VStr (str (new_id coll))]}).
Proof.
  intros Hy Hs. eexists. split; [by apply new_calendar_Ok|]. cbn [Calendar.pages].
  assert (Hrot : CalendarPage.month <$> (page_at (CalendarCreate.start_month payload) <$> seq 0 12)
                 = rotate (Z.to_nat (CalendarCreate.start_month payload - 1)) (seqZ 1 12)).
  { assert (Hc : ∃ k : nat, (k < 12)%nat ∧ CalendarCreate.start_month payload = Z.of_nat k + 1).
    { exists (Z.to_nat (CalendarCreate.start_month payload - 1)). lia. }
    destruct Hc as (k & Hk & ->).
    do 12 (destruct k as [|k]; [reflexivity|]). lia. }
  split; [by rewrite length_fmap, length_seq|].
  split.
  { intros i Hi. rewrite list_lookup_fmap, lookup_seq_lt by done. done. }
  split; [done|].
  split.
  { rewrite Hrot. unfold rotate. rewrite Permutation_app_comm. by rewrite take_drop. }
  intros db. unfold create_calendar. rewrite new_calendar_Ok by done. done.
Qed.

(** C6. [update_calendar_page] with a month outside [1,12] raises the
    status-400 "Month must be 1..12" error, an InvalidField failure,
    whatever the store (reachable or not, holding the calendar or not) and
    whatever the identifier (well formed or not). *)
Theorem update_calendar_page_month_out_of_range
    (db : option Database) utcnow calendar_id month payload :
  month < 1 ∨ 12 < month →
  update_calendar_page db utcnow calendar_id month payload
    = Raise (HTTPException 400 "Month must be 1..12") ∧
  failure_of (HTTPException 400 "Month must be 1..12") = Some InvalidField.
Proof.
  intros Hm. split; [|done]. by apply update_calendar_page_bad_month.
Qed.

(** C7, as the code has it.  With a reachable store, [get_calendar] raises
    the "Invalid calendar id" error (InvalidIdentifier) for every identifier
    that does not parse, the "Calendar not found" error (NotFound) for every
    identifier that parses and matches no document, and otherwise returns
    the stored fields with the identifier as the string field [id].  With
    no store it raises "Database not available" (StoreUnavailable) for
    every identifier: the store is checked before the identifier. *)
Theorem get_calendar_outcomes (db : Database) calendar_id :
  (ObjectId calendar_id = None →
     get_calendar (Some db) calendar_id = Raise (HTTPException 400 "Invalid calendar id")) ∧
  (∀ oid, ObjectId calendar_id = Some oid → getitem db "calendar" !! oid = None →
     get_calendar (Some db) calendar_id = Raise (HTTPException 404 "Calendar not found")) ∧
  (∀ oid f, ObjectId calendar_id = Some oid → getitem db "calendar" !! oid = Some f →
     ∃ doc, get_calendar (Some db) calendar_id = Ok (VDict doc) ∧
            doc !! "id" = Some (VStr (str oid)) ∧
            ∀ k, k ≠ "id" → doc !! k = f !! k) ∧
  get_calendar None calendar_id = Raise (HTTPException 500 "Database not available") ∧
  failure_of (HTTPException 400 "Invalid calendar id") = Some InvalidIdentifier ∧
  failure_of (HTTPException 404 "Calendar not found") = Some NotFound ∧
  failure_of (HTTPException 500 "Database not available") = Some StoreUnavailable.
Proof.
  unfold get_calendar, find_one. repeat split; try done.
  - by intros ->.
  - by intros oid -> ->.
  - intros oid f -> ->. simpl. eexists. split; [done|].
    split; [by rewrite lookup_insert_eq|].
    intros k Hk. by rewrite lookup_insert_ne.
Qed.

(** C8, as the code has it.  For a valid month and an identifier that does
    not parse, [update_calendar_page] raises "Invalid calendar id"
    (InvalidIdentifier) when the store is reachable, and "Database not
    available" (StoreUnavailable) when it is not: the store is checked
    before the identifier. *)
Theorem update_calendar_page_invalid_id
    (db : option Database) utcnow calendar_id month payload :
  1 ≤ month ≤ 12 →
  ObjectId calendar_id = None →
  update_calendar_page db utcnow calendar_id month payload
    = match db with
      | Some _ => Raise (HTTPException 400 "Invalid calendar id")
      | None => Raise (HTTPException 500 "Database not available")
      end ∧
  failure_of (HTTPException 400 "Invalid calendar id") = Some InvalidIdentifier ∧
  failure_of (HTTPException 500 "Database not available") = Some StoreUnavailable.
Proof.
  intros Hm Hid. split; [|done]. unfold update_calendar_page.
  destruct ((month <? 1) || (month >? 12)) eqn:Hr; [lia|].
  destruct db; [by rewrite Hid|done].
Qed.

(** C2. When the calendar holds a page for the month (the search of line
    137 finds it at [idx]), [update_calendar_page] succeeds and changes, in
    the whole store, only that page's [image_url] (when one is supplied),
    that page's [note] (when one is supplied) and the calendar's
    [updated_at]: the other keys of the page, the other pages, the other
    fields of the calendar, the other calendars and the other collections
    are as they were. *)
Theorem update_calendar_page_frame
    (db : Database) utcnow calendar_id month payload oid f ps idx :
  1 ≤ month ≤ 12 →
  ObjectId calendar_id = Some oid →
  getitem db "calendar" !! oid = Some f →
  f !! "pages" = Some (VList ps) →
  next_index month ps 0 = Ok (Some idx) →
  ∃ p p' ps' f' db',
    ps !! idx = Some (VDict p) ∧ p !! "month" = Some (VInt month) ∧
    update_calendar_page (Some db) utcnow calendar_id month payload
      = Ok (db', VDict {["status" := VStr "ok"]}) ∧
    getitem db' "calendar" !! oid = Some f' ∧
    f' !! "pages" = Some (VList ps') ∧
    f' !! "updated_at" = Some (VDatetime utcnow) ∧
    (∀ k, k ≠ "pages" → k ≠ "updated_at" → f' !! k = f !! k) ∧
    length ps' = length ps ∧
    ps' !! idx = Some (VDict p') ∧
    (∀ j, j ≠ idx → ps' !! j = ps !! j) ∧
    p' !! "image_url" = match PageUpdate.image_url payload with
                        | Some s => Some (VStr s)
                        | None => p !! "image_url"
                        end ∧
    p' !! "note" = match PageUpdate.note payload with
                   | Some s => Some (VStr s)
                   | None => p !! "note"
                   end ∧
    (∀ k, k ≠ "image_url" → k ≠ "note" → p' !! k = p !! k) ∧
    (∀ o, o ≠ oid → getitem db' "calendar" !! o = getitem db "calendar" !! o) ∧
    (∀ name, name ≠ "calendar" → db' !! name = db !! name).
Proof.
  intros Hm Hid Hf Hps Hn.
  destruct (upsert_page_found _ payload _ _ Hn) as (p & Hp & Hpm & Hu).
  exists p, (patched payload p). do 3 eexists.
  split; [done|]. split.
  { unfold get_eq_int in Hpm. destruct (p !! "month") as [[| k | | | |]|]; try done.
    apply Z.eqb_eq in Hpm. by subst. }
  split.
  { eapply update_calendar_page_ok; [done..|]. by rewrite Hps. }
  rewrite getitem_insert. unfold written.
  split; [by rewrite lookup_insert_eq|].
  split; [by rewrite lookup_insert_eq|].
  split; [by rewrite lookup_insert_ne, lookup_insert_eq|].
  split; [intros k H1 H2; by rewrite !lookup_insert_ne|].
  split; [by rewrite length_insert|].
  split; [apply list_lookup_insert_eq; by eapply lookup_lt_Some|].
  split; [intros j Hj; by rewrite list_lookup_insert_ne|].
  split; [apply patched_image_url|].
  split; [apply patched_note|].
  split; [apply patched_lookup_ne|].
  split; [intros o Ho; by rewrite lookup_insert_ne|].
  intros name Hname. by rewrite lookup_insert_ne.
Qed.

(** C3. [update_calendar_page] twice in succession with the same month,
    image and note (at times [t1] then [t2]) leaves every calendar with the
    pages one call leaves; the store after the two calls is the store one
    call at [t2] leaves; and the second call raises exactly when the first
    did. *)
Theorem update_calendar_page_idempotent
    (db : option Database) t1 t2 calendar_id month payload :
  let r1 := update_calendar_page db t1 calendar_id month payload in
  let s1 := state_after db r1 in
  let r2 := update_calendar_page s1 t2 calendar_id month payload in
  let s2 := state_after s1 r2 in
  (∀ oid, pages_of s2 oid = pages_of s1 oid) ∧
  s2 = state_after db (update_calendar_page db t2 calendar_id month payload) ∧
  (∀ e, r2 = Raise e ↔ r1 = Raise e).
Proof.
  assert (Hraise : ∀ e,
    (∀ t, update_calendar_page db t calendar_id month payload = Raise e) →
    let r1 := update_calendar_page db t1 calendar_id month payload in
    let s1 := state_after db r1 in
    let r2 := update_calendar_page s1 t2 calendar_id month payload in
    let s2 := state_after s1 r2 in
    (∀ oid, pages_of s2 oid = pages_of s1 oid) ∧
    s2 = state_after db (update_calendar_page db t2 calendar_id month payload) ∧
    (∀ e, r2 = Raise e ↔ r1 = Raise e)).
  { intros e He. cbn zeta. rewrite (He t1). cbn [state_after].
    rewrite !(He t2). by cbn [state_after]. }
  destruct (decide (1 ≤ month ≤ 12)) as [Hm|Hm].
  2:{ apply (Hraise (HTTPException 400 "Month must be 1..12")). intros t.
      apply update_calendar_page_bad_month. lia. }
  destruct db as [db|].
  2:{ apply (Hraise (HTTPException 500 "Database not available")). intros t.
      unfold update_calendar_page.
      by destruct ((month <? 1) || (month >? 12)) eqn:Hr; [lia|]. }
  destruct (ObjectId calendar_id) as [oid|] eqn:Hid.
  2:{ apply (Hraise (HTTPException 400 "Invalid calendar id")). intros t.
      unfold update_calendar_page.
      destruct ((month <? 1) || (month >? 12)) eqn:Hr; [lia|]. by rewrite Hid. }
  destruct (getitem db "calendar" !! oid) as [f|] eqn:Hf.
  2:{ apply (Hraise (HTTPException 404 "Calendar not found")). intros t.
      unfold update_calendar_page, find_one.
      destruct ((month <? 1) || (month >? 12)) eqn:Hr; [lia|]. by rewrite Hid, Hf. }
  destruct (upsert_page month payload (default (VList []) (f !! "pages")))
    as [ps'|e] eqn:Hu.
  2:{ apply (Hraise e). intros t. by eapply update_calendar_page_raise_upsert. }
  cbn zeta.
  rewrite !(update_calendar_page_ok _ _ _ _ _ _ _ _ Hm Hid Hf Hu). cbn [state_after].
  set (db1 := <["calendar" := <[oid := written f ps' t1]> (getitem db "calendar")]> db).
  assert (Hf1 : getitem db1 "calendar" !! oid = Some (written f ps' t1)).
  { unfold db1. by rewrite getitem_insert, lookup_insert_eq. }
  assert (Hu1 : upsert_page month payload
                  (default (VList []) (written f ps' t1 !! "pages")) = Ok ps').
  { unfold written. rewrite lookup_insert_eq. simpl. by eapply upsert_page_idemp. }
  rewrite (update_calendar_page_ok _ _ _ _ _ _ _ _ Hm Hid Hf1 Hu1). cbn [state_after].
  assert (Hdb : <["calendar" := <[oid := written (written f ps' t1) ps' t2]>
                                  (getitem db1 "calendar")]> db1
                = <["calendar" := <[oid := written f ps' t2]> (getitem db "calendar")]> db).
  { unfold db1. by rewrite getitem_insert, !insert_insert_eq, written_written. }
  rewrite Hdb. split; [|split; [done|]].
  - intros o. unfold pages_of, db1. simpl. rewrite !getitem_insert.
    destruct (decide (o = oid)) as [->|Ho].
    + rewrite !lookup_insert_eq. simpl. unfold written. by rewrite !lookup_insert_eq.
    + by rewrite !lookup_insert_ne.
  - intros e. split; intros; discriminate.
Qed.

(** C4. When the calendar exists and no page of it has the month (the
    search of line 137 ends without a match), [update_calendar_page]
    appends exactly one page: it holds the month and the supplied fields
    and no other key, and the pages that were there stay in place. *)
Theorem update_calendar_page_appends
    (db : Database) utcnow calendar_id month payload oid f ps :
  1 ≤ month ≤ 12 →
  ObjectId calendar_id = Some oid →
  getitem db "calendar" !! oid = Some f →
  default (VList []) (f !! "pages") = VList ps →
  next_index month ps 0 = Ok None →
  ∃ p' f' db',
    update_calendar_page (Some db) utcnow calendar_id month payload
      = Ok (db', VDict {["status" := VStr "ok"]}) ∧
    getitem db' "calendar" !! oid = Some f' ∧
    f' !! "pages" = Some (VList (ps ++ [VDict p'])) ∧
    p' !! "month" = Some (VInt month) ∧
    p' !! "image_url" = VStr <$> PageUpdate.image_url payload ∧
    p' !! "note" = VStr <$> PageUpdate.note payload ∧
    (∀ k, k ≠ "month" → k ≠ "image_url" → k ≠ "note" → p' !! k = None).
Proof.
  intros Hm Hid Hf Hps Hn.
  exists (patched payload {["month" := VInt month]}). do 2 eexists.
  split.
  { eapply update_calendar_page_ok; [done..|]. rewrite Hps.
    by apply upsert_page_missing. }
  rewrite getitem_insert. unfold written.
  split; [by rewrite lookup_insert_eq|].
  split; [by rewrite lookup_insert_eq|].
  split; [by rewrite patched_lookup_ne, lookup_singleton_eq|].
  split.
  { rewrite patched_image_url. by destruct (PageUpdate.image_url payload). }
  split.
  { rewrite patched_note. by destruct (PageUpdate.note payload). }
  intros k H1 H2 H3. by rewrite patched_lookup_ne, lookup_singleton_ne.
Qed.

(** C5. A stored calendar with at most one page per month value, whatever
    the other calendars of the store hold, has at most one page per month
    value after any [update_calendar_page] call, be it the calendar updated
    or not and whether the call returns or raises, and after any
    [create_calendar] call.  The calendar [create_calendar] builds has at
    most one page per month value, and a valid request on a reachable store
    stores it under the new identifier. *)
Theorem one_page_per_month_preserved
    (db : Database) utcnow calendar_id month payload request oid f :
  getitem db "calendar" !! oid = Some f →
  calendar_one_page_per_month f →
  (∃ db' f',
     state_after (Some db)
       (update_calendar_page (Some db) utcnow calendar_id month payload) = Some db' ∧
     getitem db' "calendar" !! oid = Some f' ∧
     calendar_one_page_per_month f') ∧
  (∃ db' f',
     state_after (Some db) (create_calendar (Some db) request) = Some db' ∧
     getitem db' "calendar" !! oid = Some f' ∧
     calendar_one_page_per_month f') ∧
  (∀ cal, new_calendar request = Ok cal →
          one_page_per_month (dump_page <$> Calendar.pages cal) ∧
          calendar_one_page_per_month (model_dump cal)) ∧
  (1900 ≤ CalendarCreate.year request ≤ 3000 →
   1 ≤ CalendarCreate.start_month request ≤ 12 →
   ∃ cal db' r,
     new_calendar request = Ok cal ∧
     create_calendar (Some db) request = Ok (db', r) ∧
     getitem db' "calendar" !! new_id (getitem db "calendar") = Some (model_dump cal) ∧
     calendar_one_page_per_month (model_dump cal)).
Proof.
  intros Hf Hinv.
  assert (Hnew : ∀ cal, new_calendar request = Ok cal →
                        calendar_one_page_per_month (model_dump cal)).
  { intros cal Hc ps. rewrite model_dump_pages. intros [= <-].
    by eapply new_calendar_one_page_per_month. }
  split; [|split; [|split]].
  - destruct (update_calendar_page (Some db) utcnow calendar_id month payload)
      as [[db' r]|e] eqn:Hr; cbn [state_after]; [|by exists db, f].
    apply update_calendar_page_Ok_inv in Hr
      as (o & g & ps' & Hm & Hid & Hg & Hu & -> & _).
    exists (<["calendar" := <[o := written g ps' utcnow]> (getitem db "calendar")]> db).
    destruct (decide (oid = o)) as [->|Ho].
    + exists (written g ps' utcnow).
      split; [done|]. split; [by rewrite getitem_insert, lookup_insert_eq|].
      rewrite Hf in Hg. injection Hg as <-.
      intros ps. unfold written. rewrite lookup_insert_eq. intros [= <-].
      destruct (f !! "pages") as [v|] eqn:Hv; simpl in Hu.
      * destruct v as [| | | |ps0|]; try done.
        eapply upsert_page_one_page_per_month; [|done]. by apply Hinv.
      * eapply upsert_page_one_page_per_month; [|done]. apply NoDup_nil_2.
    + exists f. split; [done|].
      split; [by rewrite getitem_insert, lookup_insert_ne|done].
  - unfold create_calendar.
    destruct (new_calendar request) as [cal|e] eqn:Hc; simpl; [|by exists db, f].
    eexists.
    destruct (decide (oid = new_id (getitem db "calendar"))) as [->|Ho].
    + exists (model_dump cal). split; [done|].
      split; [by rewrite getitem_insert, lookup_insert_eq|]. by apply Hnew.
    + exists f. split; [done|].
      split; [by rewrite getitem_insert, lookup_insert_ne|done].
  - intros cal Hc. split; [by eapply new_calendar_one_page_per_month|by apply Hnew].
  - intros Hy Hs. do 3 eexists.
    split; [by apply new_calendar_Ok|].
    split; [unfold create_calendar; by rewrite new_calendar_Ok|].
    split; [by rewrite getitem_insert, lookup_insert_eq|].
    apply Hnew. by apply new_calendar_Ok.
Qed.

(** C9. [create_calendar] raises an InvalidField failure (pydantic's
    [ValidationError], from the constraints of [Calendar]) exactly when the
    year is outside [1900,3000] or the start month is outside [1,12],
    whatever the store; and a request with an empty title and both in range
    is accepted. *)
Theorem create_calendar_invalid_field (db : option Database) (payload : CalendarCreate.t) :
  ((∃ e, create_calendar db payload = Raise e ∧ failure_of e = Some InvalidField)
   ↔ (CalendarCreate.year payload < 1900 ∨ 3000 < CalendarCreate.year payload ∨
      CalendarCreate.start_month payload < 1 ∨ 12 < CalendarCreate.start_month payload)) ∧
  (∀ (d : Database) year start_month style owner,
     1900 ≤ year ≤ 3000 → 1 ≤ start_month ≤ 12 →
     ∃ r, create_calendar (Some d) (CalendarCreate.mk "" year start_month style owner)
          = Ok r).
Proof.
  split; [split|].
  - intros (e & He & Hfail).
    destruct (decide (1900 ≤ CalendarCreate.year payload ≤ 3000
                      ∧ 1 ≤ CalendarCreate.start_month payload ≤ 12)) as [[Hy Hs]|Hr]; [|lia].
    unfold create_calendar in He. rewrite new_calendar_Ok in He by done.
    destruct db; simpl in He; [done|]. by injection He as <-.
  - intros Hr. destruct (new_calendar_Raise _ Hr) as [errors He].
    exists (ValidationError errors). unfold create_calendar. by rewrite He.
  - intros d year start_month style owner Hy Hs. eexists.
    unfold create_calendar. by rewrite new_calendar_Ok.
Qed.

(** C10. With a valid month, an existing calendar whose pages can be
    searched, and neither image nor note supplied, [update_calendar_page]
    still returns the success marker and still writes: [updated_at] becomes
    the time of the call, the pages stay as they were when one has the
    month, and otherwise gain one page that holds the month only, with
    neither [image_url] nor [note]. *)
Theorem update_calendar_page_empty_payload
    (db : Database) utcnow calendar_id month oid f ps found :
  1 ≤ month ≤ 12 →
  ObjectId calendar_id = Some oid →
  getitem db "calendar" !! oid = Some f →
  default (VList []) (f !! "pages") = VList ps →
  next_index month ps 0 = Ok found →
  ∃ f' db',
    update_calendar_page (Some db) utcnow calendar_id month (PageUpdate.mk None None)
      = Ok (db', VDict {["status" := VStr "ok"]}) ∧
    getitem db' "calendar" !! oid = Some f' ∧
    f' !! "updated_at" = Some (VDatetime utcnow) ∧
    (∀ k, k ≠ "pages" → k ≠ "updated_at" → f' !! k = f !! k) ∧
    match found with
    | Some _ => f' !! "pages" = Some (VList ps)
    | None =>
        ∃ p', f' !! "pages" = Some (VList (ps ++ [VDict p'])) ∧
              p' !! "month" = Some (VInt month) ∧
              p' !! "image_url" = None ∧ p' !! "note" = None
    end.
Proof.
  intros Hm Hid Hf Hps Hn.
  assert (Hu : upsert_page month (PageUpdate.mk None None) (VList ps)
               = Ok match found with
                    | Some _ => ps
                    | None => ps ++ [VDict {["month" := VInt month]}]
                    end).
  { destruct found as [idx|].
    - destruct (upsert_page_found _ (PageUpdate.mk None None) _ _ Hn) as (p & Hp & _ & ->).
      unfold patched. simpl. by rewrite list_insert_id.
    - by rewrite (upsert_page_missing _ _ _ Hn). }
  rewrite <- Hps in Hu. do 2 eexists.
  split; [by eapply update_calendar_page_ok|].
  rewrite getitem_insert. unfold written.
  split; [by rewrite lookup_insert_eq|].
  split; [by rewrite lookup_insert_ne, lookup_insert_eq|].
  split; [intros k H1 H2; by rewrite !lookup_insert_ne|].
  destruct found; [by rewrite lookup_insert_eq|].
  eexists. split; [by rewrite lookup_insert_eq|]. done.
Qed.

(** ** Further properties of the calendar routes *)

Lemma next_index_insert_month month (ps : list value) (j : nat) p p' i :
  ps !! j = Some (VDict p) →
  p' !! "month" = p !! "month" →
  next_index month (<[j := VDict p']> ps) i = next_index month ps i.
Proof.
  revert j i. induction ps as [|v ps IH]; intros [|j] i Hp Hm; try done.
  - injection Hp as ->. cbn. by rewrite Hm.
  - cbn. destruct v as [| | | | |q]; try done.
    destruct (get_eq_int (q !! "month") month); [done|]. by apply IH.
Qed.

Lemma patched_is_Some payload (p : gmap string value) k :
  is_Some (p !! k) → is_Some (patched payload p !! k).
Proof.
  intros Hk.
  destruct (decide (k = "image_url")) as [->|H1].
  { rewrite patched_image_url. by destruct (PageUpdate.image_url payload). }
  destruct (decide (k = "note")) as [->|H2].
  { rewrite patched_note. by destruct (PageUpdate.note payload). }
  by rewrite patched_lookup_ne.
Qed.

Lemma get_eq_int_true (p : gmap string value) month :
  get_eq_int (p !! "month") month = true ↔ p !! "month" = Some (VInt month).
Proof.
  unfold get_eq_int. destruct (p !! "month") as [[| k | | | |]|]; try (split; done).
  rewrite Z.eqb_eq. split; [by intros ->|by intros [= ->]].
Qed.

(** What a successful upsert leaves: the page of the month, first of its
    month, with the supplied fields; the pages that were there, in place. *)
Lemma upsert_page_Ok_inv month payload v ps' :
  upsert_page month payload v = Ok ps' →
  ∃ ps found idx p,
    v = VList ps ∧ next_index month ps 0 = Ok found ∧
    idx = default (length ps) found ∧
    match found with
    | Some _ => ps !! idx = Some (VDict p)
    | None => p = {["month" := VInt month]}
    end ∧
    p !! "month" = Some (VInt month) ∧
    ps' = match found with
          | Some _ => <[idx := VDict (patched payload p)]> ps
          | None => ps ++ [VDict (patched payload p)]
          end.
Proof.
  intros Hu. destruct v as [| | | |ps|]; try done.
  destruct (next_index month ps 0) as [[idx|]|e] eqn:Hn.
  - destruct (upsert_page_found _ payload _ _ Hn) as (p & Hp & Hm & Hu').
    rewrite Hu' in Hu. injection Hu as <-.
    exists ps, (Some idx), idx, p. by rewrite <- get_eq_int_true.
  - rewrite (upsert_page_missing _ _ _ Hn) in Hu. injection Hu as <-.
    exists ps, None, (length ps), {["month" := VInt month]}.
    by rewrite lookup_singleton_eq.
  - unfold upsert_page in Hu. simpl in Hu. by rewrite Hn in Hu.
Qed.

Lemma update_calendar_page_twice (db : Database) t1 t2 calendar_id m1 m2 a b oid f ps1 ps2 :
  1 ≤ m1 ≤ 12 → 1 ≤ m2 ≤ 12 →
  ObjectId calendar_id = Some oid →
  getitem db "calendar" !! oid = Some f →
  upsert_page m1 a (default (VList []) (f !! "pages")) = Ok ps1 →
  upsert_page m2 b (VList ps1) = Ok ps2 →
  state_after
    (state_after (Some db) (update_calendar_page (Some db) t1 calendar_id m1 a))
    (update_calendar_page
       (state_after (Some db) (update_calendar_page (Some db) t1 calendar_id m1 a))
       t2 calendar_id m2 b)
  = Some (<["calendar" := <[oid := written f ps2 t2]> (getitem db "calendar")]> db).
Proof.
  intros Hm1 Hm2 Hid Hf H1 H2.
  rewrite (update_calendar_page_ok _ _ _ _ _ _ _ _ Hm1 Hid Hf H1). cbn [state_after].
  erewrite update_calendar_page_ok; [| done | done | |].
  - cbn [state_after]. by rewrite getitem_insert, !insert_insert_eq, written_written.
  - by rewrite getitem_insert, lookup_insert_eq.
  - unfold written. rewrite lookup_insert_eq. exact H2.
Qed.

(** X1. With a valid month, a reachable store and an identifier that
    parses but names no calendar, [update_calendar_page] raises "Calendar
    not found" (NotFound). *)
Theorem update_calendar_page_not_found
    (db : Database) utcnow calendar_id month payload oid :
  1 ≤ month ≤ 12 →
  ObjectId calendar_id = Some oid →
  getitem db "calendar" !! oid = None →
  update_calendar_page (Some db) utcnow calendar_id month payload
    = Raise (HTTPException 404 "Calendar not found") ∧
  failure_of (HTTPException 404 "Calendar not found") = Some NotFound.
Proof.
  intros Hm Hid Hf. split; [|done]. unfold update_calendar_page, find_one.
  destruct ((month <? 1) || (month >? 12)) eqn:Hr; [lia|]. by rewrite Hid, Hf.
Qed.

(** X2. A successful [update_calendar_page] creates no calendar and deletes
    none, and changes no calendar but the one it names and no collection but
    [calendar]. *)
Theorem update_calendar_page_same_calendars
    (db db' : Database) utcnow calendar_id month payload r :
  update_calendar_page (Some db) utcnow calendar_id month payload = Ok (db', r) →
  dom (getitem db' "calendar") = dom (getitem db "calendar") ∧
  (∀ o, ObjectId calendar_id ≠ Some o →
        getitem db' "calendar" !! o = getitem db "calendar" !! o) ∧
  (∀ name, name ≠ "calendar" → db' !! name = db !! name).
Proof.
  intros Hr. apply update_calendar_page_Ok_inv in Hr
    as (oid & f & ps' & Hm & Hid & Hf & Hu & -> & _).
  rewrite getitem_insert. split; [|split].
  - rewrite dom_insert_L. apply elem_of_dom_2 in Hf.
    apply set_eq. intros o. rewrite elem_of_union, elem_of_singleton.
    split; [by intros [->|?]|by right].
  - intros o Ho. rewrite lookup_insert_ne; [done|]. congruence.
  - intros name Hname. by rewrite lookup_insert_ne.
Qed.

Lemma patched_changes payload (p : gmap string value) k :
  patched payload p !! k = p !! k ∨
  ∃ s, patched payload p !! k = Some (VStr s) ∧
       (k = "image_url" ∧ PageUpdate.image_url payload = Some s ∨
        k = "note" ∧ PageUpdate.note payload = Some s).
Proof.
  destruct (decide (k = "image_url")) as [->|H1].
  { rewrite patched_image_url.
    destruct (PageUpdate.image_url payload) as [s|]; [right; exists s; auto|by left]. }
  destruct (decide (k = "note")) as [->|H2].
  { rewrite patched_note.
    destruct (PageUpdate.note payload) as [s|]; [right; exists s; auto|by left]. }
  left. by apply patched_lookup_ne.
Qed.

(** X3. A successful [update_calendar_page] removes nothing from the
    calendar it names: its pages grow by at most one and every page stays at
    its index.  A key of a page keeps its value, unless it is [image_url] or
    [note] and takes the string the caller supplied for it: no key is
    removed, no value is replaced by null, and a key that holds a non-null
    value holds one afterwards (no populated page becomes empty). *)
Theorem update_calendar_page_keeps_pages
    (db db' : Database) utcnow calendar_id month payload r :
  update_calendar_page (Some db) utcnow calendar_id month payload = Ok (db', r) →
  ∃ oid f f' ps ps',
    ObjectId calendar_id = Some oid ∧
    getitem db "calendar" !! oid = Some f ∧
    getitem db' "calendar" !! oid = Some f' ∧
    default (VList []) (f !! "pages") = VList ps ∧
    f' !! "pages" = Some (VList ps') ∧
    (length ps ≤ length ps' ≤ S (length ps))%nat ∧
    ∀ (i : nat) v, ps !! i = Some v →
      ps' !! i = Some v ∨
      ∃ p p', v = VDict p ∧ ps' !! i = Some (VDict p') ∧
              (∀ k, is_Some (p !! k) → is_Some (p' !! k)) ∧
              (∀ k, k ≠ "image_url" → k ≠ "note" → p' !! k = p !! k) ∧
              (∀ k, p' !! k = p !! k ∨
                    ∃ s, p' !! k = Some (VStr s) ∧
                         (k = "image_url" ∧ PageUpdate.image_url payload = Some s ∨
                          k = "note" ∧ PageUpdate.note payload = Some s)) ∧
              (∀ k v0, p !! k = Some v0 → v0 ≠ VNone →
                       ∃ v1, p' !! k = Some v1 ∧ v1 ≠ VNone).
Proof.
  intros Hr. apply update_calendar_page_Ok_inv in Hr
    as (oid & f & ps' & Hm & Hid & Hf & Hu & -> & _).
  destruct (upsert_page_Ok_inv _ _ _ _ Hu)
    as (ps & found & idx & p & Hv & Hn & Hidx & Hp & _ & Hps').
  exists oid, f, (written f ps' utcnow), ps, ps'.
  split; [done|]. split; [done|].
  split; [by rewrite getitem_insert, lookup_insert_eq|].
  split; [done|]. split; [unfold written; by rewrite lookup_insert_eq|].
  destruct found as [j|]; simpl in Hidx; subst idx ps'.
  - split; [rewrite length_insert; lia|]. intros i v Hi.
    destruct (decide (i = j)) as [->|Hij].
    + right. exists p, (patched payload p). rewrite Hp in Hi. injection Hi as <-.
      split; [done|]. split; [apply list_lookup_insert_eq; by eapply lookup_lt_Some|].
      split; [apply patched_is_Some|]. split; [apply patched_lookup_ne|].
      split; [apply patched_changes|].
      intros k v0 Hk Hv0.
      destruct (patched_changes payload p k) as [Heq|(s & Hs & _)].
      * exists v0. by rewrite Heq.
      * exists (VStr s). by rewrite Hs.
    + left. by rewrite list_lookup_insert_ne.
  - split; [rewrite length_app; simpl; lia|]. intros i v Hi.
    left. by apply lookup_app_l_Some.
Qed.

(** X4. After a successful [update_calendar_page] the calendar has a page
    of the month, the first one a search for the month finds, and it holds
    every supplied field. *)
Theorem update_calendar_page_sets_fields
    (db db' : Database) utcnow calendar_id month payload r :
  update_calendar_page (Some db) utcnow calendar_id month payload = Ok (db', r) →
  ∃ oid f' ps' idx p',
    ObjectId calendar_id = Some oid ∧
    getitem db' "calendar" !! oid = Some f' ∧
    f' !! "pages" = Some (VList ps') ∧
    next_index month ps' 0 = Ok (Some idx) ∧
    ps' !! idx = Some (VDict p') ∧
    p' !! "month" = Some (VInt month) ∧
    (∀ s, PageUpdate.image_url payload = Some s → p' !! "image_url" = Some (VStr s)) ∧
    (∀ s, PageUpdate.note payload = Some s → p' !! "note" = Some (VStr s)).
Proof.
  intros Hr. apply update_calendar_page_Ok_inv in Hr
    as (oid & f & ps' & Hm & Hid & Hf & Hu & -> & _).
  pose proof (upsert_page_idemp _ _ _ _ Hu) as Hu2.
  destruct (upsert_page_Ok_inv _ _ _ _ Hu)
    as (ps & found & idx & p & Hv & Hn & Hidx & Hp & Hpm & Hps').
  assert (Hpm' : patched payload p !! "month" = Some (VInt month))
    by by rewrite patched_lookup_ne.
  exists oid, (written f ps' utcnow), ps', idx, (patched payload p).
  split; [done|]. split; [by rewrite getitem_insert, lookup_insert_eq|].
  split; [unfold written; by rewrite lookup_insert_eq|].
  assert (Hfields :
    (∀ s, PageUpdate.image_url payload = Some s →
          patched payload p !! "image_url" = Some (VStr s)) ∧
    (∀ s, PageUpdate.note payload = Some s → patched payload p !! "note" = Some (VStr s))).
  { split; intros s Hs; [rewrite patched_image_url | rewrite patched_note]; by rewrite Hs. }
  destruct found as [j|]; simpl in Hidx; subst idx; subst ps'.
  - split.
    { rewrite <- (Nat.sub_0_r j) at 1. apply next_index_insert; [done|].
      by apply get_eq_int_true. }
    split; [apply list_lookup_insert_eq; by eapply lookup_lt_Some|]. done.
  - split.
    { apply (next_index_app _ _ 0%nat); [done|]. by apply get_eq_int_true. }
    split; [by rewrite lookup_app_r, Nat.sub_diag by lia|]. done.
Qed.

(** X5. After a successful [update_calendar_page], [get_calendar] with the
    same identifier succeeds and shows the pages the update stored, the time
    of the update as [updated_at], and the identifier as [id]. *)
Theorem get_calendar_after_update
    (db db' : Database) utcnow calendar_id month payload r :
  update_calendar_page (Some db) utcnow calendar_id month payload = Ok (db', r) →
  ∃ oid f' doc,
    ObjectId calendar_id = Some oid ∧
    getitem db' "calendar" !! oid = Some f' ∧
    get_calendar (Some db') calendar_id = Ok (VDict doc) ∧
    doc !! "id" = Some (VStr (str oid)) ∧
    doc !! "updated_at" = Some (VDatetime utcnow) ∧
    doc !! "pages" = f' !! "pages" ∧
    is_Some (f' !! "pages").
Proof.
  intros Hr. apply update_calendar_page_Ok_inv in Hr
    as (oid & f & ps' & Hm & Hid & Hf & Hu & -> & _).
  exists oid, (written f ps' utcnow). eexists.
  split; [done|]. split; [by rewrite getitem_insert, lookup_insert_eq|].
  split.
  { unfold get_calendar, find_one.
    by rewrite Hid, getitem_insert, lookup_insert_eq. }
  simpl. split; [by rewrite lookup_insert_eq|].
  unfold written.
  split; [by rewrite !lookup_insert_ne, lookup_insert_eq by done|].
  split; [by rewrite lookup_insert_ne by done|].
  rewrite lookup_insert_eq. by eexists.
Qed.

(** X6. Two updates of different months that both have a page commute: in
    either order, with the later call at the same time, they leave the same
    store, in which each of the two pages carries its update. *)
Theorem update_calendar_page_commute
    (db : Database) t1 t2 calendar_id m1 m2 a b oid f ps i1 i2 :
  1 ≤ m1 ≤ 12 → 1 ≤ m2 ≤ 12 → m1 ≠ m2 →
  ObjectId calendar_id = Some oid →
  getitem db "calendar" !! oid = Some f →
  f !! "pages" = Some (VList ps) →
  next_index m1 ps 0 = Ok (Some i1) →
  next_index m2 ps 0 = Ok (Some i2) →
  let sa := state_after (Some db) (update_calendar_page (Some db) t1 calendar_id m1 a) in
  let sb := state_after (Some db) (update_calendar_page (Some db) t1 calendar_id m2 b) in
  let sab := state_after sa (update_calendar_page sa t2 calendar_id m2 b) in
  let sba := state_after sb (update_calendar_page sb t2 calendar_id m1 a) in
  sab = sba ∧
  ∃ p1 p2 ps',
    ps !! i1 = Some (VDict p1) ∧ ps !! i2 = Some (VDict p2) ∧
    pages_of sab oid = Some (VList ps') ∧
    ps' !! i1 = Some (VDict (patched a p1)) ∧
    ps' !! i2 = Some (VDict (patched b p2)).
Proof.
  intros Hm1 Hm2 Hne Hid Hf Hps Hn1 Hn2. cbn zeta.
  destruct (upsert_page_found _ a _ _ Hn1) as (p1 & Hp1 & Hpm1 & Hu1).
  destruct (upsert_page_found _ b _ _ Hn2) as (p2 & Hp2 & Hpm2 & Hu2).
  apply get_eq_int_true in Hpm1, Hpm2.
  assert (Hi : i1 ≠ i2).
  { intros ->. rewrite Hp1 in Hp2. injection Hp2 as ->. congruence. }
  assert (Hu12 : upsert_page m2 b (VList (<[i1 := VDict (patched a p1)]> ps))
                 = Ok (<[i2 := VDict (patched b p2)]> (<[i1 := VDict (patched a p1)]> ps))).
  { assert (Hn : next_index m2 (<[i1 := VDict (patched a p1)]> ps) 0 = Ok (Some i2)).
    { rewrite (next_index_insert_month _ _ _ p1); [done..|]. by rewrite patched_lookup_ne. }
    destruct (upsert_page_found _ b _ _ Hn) as (q & Hq & _ & ->).
    rewrite list_lookup_insert_ne, Hp2 in Hq by done. by injection Hq as <-. }
  assert (Hu21 : upsert_page m1 a (VList (<[i2 := VDict (patched b p2)]> ps))
                 = Ok (<[i1 := VDict (patched a p1)]> (<[i2 := VDict (patched b p2)]> ps))).
  { assert (Hn : next_index m1 (<[i2 := VDict (patched b p2)]> ps) 0 = Ok (Some i1)).
    { rewrite (next_index_insert_month _ _ _ p2); [done..|]. by rewrite patched_lookup_ne. }
    destruct (upsert_page_found _ a _ _ Hn) as (q & Hq & _ & ->).
    rewrite list_lookup_insert_ne, Hp1 in Hq by done. by injection Hq as <-. }
  assert (Hd : default (VList []) (f !! "pages") = VList ps) by by rewrite Hps.
  rewrite <- Hd in Hu1, Hu2.
  rewrite (update_calendar_page_twice _ _ _ _ _ _ _ _ _ _ _ _ Hm1 Hm2 Hid Hf Hu1 Hu12).
  rewrite (update_calendar_page_twice _ _ _ _ _ _ _ _ _ _ _ _ Hm2 Hm1 Hid Hf Hu2 Hu21).
  split; [by rewrite list_insert_insert_ne|].
  exists p1, p2. eexists. split; [done|]. split; [done|].
  split.
  { unfold pages_of. simpl. rewrite getitem_insert, lookup_insert_eq. simpl.
    unfold written. by rewrite lookup_insert_eq. }
  assert (Hl1 : (i1 < length ps)%nat) by by eapply lookup_lt_Some.
  assert (Hl2 : (i2 < length ps)%nat) by by eapply lookup_lt_Some.
  split.
  - rewrite list_lookup_insert_ne by done. by apply list_lookup_insert_eq.
  - apply list_lookup_insert_eq. by rewrite length_insert.
Qed.

Lemma new_calendar_Ok_inv payload cal :
  new_calendar payload = Ok cal →
  1900 ≤ CalendarCreate.year payload ≤ 3000 ∧
  1 ≤ CalendarCreate.start_month payload ≤ 12 ∧
  cal = Calendar.mk (CalendarCreate.title payload) (CalendarCreate.year payload)
          (CalendarCreate.start_month payload) (CalendarCreate.style payload)
          (page_at (CalendarCreate.start_month payload) <$> seq 0 12)
          (CalendarCreate.owner payload).
Proof.
  intros Hc.
  destruct (decide (1900 ≤ CalendarCreate.year payload ≤ 3000
                    ∧ 1 ≤ CalendarCreate.start_month payload ≤ 12)) as [[Hy Hs]|Hr].
  - rewrite new_calendar_Ok in Hc by done. by injection Hc as <-.
  - destruct (new_calendar_Raise payload) as [errors He]; [lia|]. congruence.
Qed.

Lemma fresh_pages_next_index start_month month :
  1 ≤ start_month ≤ 12 → 1 ≤ month ≤ 12 →
  next_index month (dump_page <$> (page_at start_month <$> seq 0 12)) 0
  = Ok (Some (Z.to_nat ((month - start_month) `mod` 12))).
Proof.
  intros Hs Hm.
  assert (Hk : ∃ k : nat, (k < 12)%nat ∧ start_month = Z.of_nat k + 1).
  { exists (Z.to_nat (start_month - 1)). lia. }
  assert (Hj : ∃ j : nat, (j < 12)%nat ∧ month = Z.of_nat j + 1).
  { exists (Z.to_nat (month - 1)). lia. }
  destruct Hk as (k & Hk & ->). destruct Hj as (j & Hj & ->).
  do 12 (destruct k as [|k];
         [do 12 (destruct j as [|j]; [vm_compute; reflexivity|]); lia|]).
  lia.
Qed.

(** X7. For every integer [start_month], in range or not, negative or not,
    the loop of [create_calendar] builds its 12 pages without a validation
    error: their months are in [1,12] and pairwise distinct, and they have
    neither image nor note. *)
Theorem initial_pages_any_start_month (start_month : Z) :
  ∃ pages,
    initial_pages start_month = Ok pages ∧
    length pages = 12%nat ∧
    Forall (λ p, 1 ≤ CalendarPage.month p ≤ 12 ∧
                 CalendarPage.image_url p = None ∧ CalendarPage.note p = None) pages ∧
    NoDup (CalendarPage.month <$> pages).
Proof.
  eexists. split; [apply initial_pages_Ok|].
  split; [by rewrite length_fmap, length_seq|].
  split; [|apply initial_months_NoDup].
  apply Forall_fmap, Forall_forall. intros i _. unfold page_at. simpl.
  split; [|done].
  pose proof (Z.mod_pos_bound (start_month - 1 + Z.of_nat i) 12 ltac:(lia)). lia.
Qed.

(** X8. A calendar [create_calendar] builds has a page for every month of
    1..12: the search of [update_calendar_page] finds the page of [month] at
    position [(month - start_month) mod 12], so an update of a freshly
    created calendar never appends. *)
Theorem created_calendar_has_every_month payload cal month :
  new_calendar payload = Ok cal →
  1 ≤ month ≤ 12 →
  next_index month (dump_page <$> Calendar.pages cal) 0
  = Ok (Some (Z.to_nat ((month - CalendarCreate.start_month payload) `mod` 12))).
Proof.
  intros Hc Hm. destruct (new_calendar_Ok_inv _ _ Hc) as (_ & Hs & ->).
  by apply fresh_pages_next_index.
Qed.

(** X9. Create, update, read.  For a valid request on a reachable store
    whose new identifier parses back from its string, [create_calendar]
    returns that string; [update_calendar_page] with it and a valid month
    succeeds; and [get_calendar] then returns the requested title, year,
    start month, style and owner, and 12 pages of which the one at position
    [(month - start_month) mod 12] has the month and the supplied image and
    note, null where none was supplied. *)
Theorem create_update_get (db : Database) request utcnow month payload :
  1900 ≤ CalendarCreate.year request ≤ 3000 →
  1 ≤ CalendarCreate.start_month request ≤ 12 →
  1 ≤ month ≤ 12 →
  ObjectId (str (new_id (getitem db "calendar"))) = Some (new_id (getitem db "calendar")) →
  ∃ db1 db2 doc ps p,
    create_calendar (Some db) request
      = Ok (db1, VDict {["id" := VStr (str (new_id (getitem db "calendar")))]}) ∧
    update_calendar_page (Some db1) utcnow (str (new_id (getitem db "calendar"))) month payload
      = Ok (db2, VDict {["status" := VStr "ok"]}) ∧
    get_calendar (Some db2) (str (new_id (getitem db "calendar"))) = Ok (VDict doc) ∧
    doc !! "id" = Some (VStr (str (new_id (getitem db "calendar")))) ∧
    doc !! "title" = Some (VStr (CalendarCreate.title request)) ∧
    doc !! "year" = Some (VInt (CalendarCreate.year request)) ∧
    doc !! "start_month" = Some (VInt (CalendarCreate.start_month request)) ∧
    doc !! "style" = Some (VStr (CalendarCreate.style request)) ∧
    doc !! "owner" = Some (of_optional (CalendarCreate.owner request)) ∧
    doc !! "updated_at" = Some (VDatetime utcnow) ∧
    doc !! "pages" = Some (VList ps) ∧
    length ps = 12%nat ∧
    ps !! Z.to_nat ((month - CalendarCreate.start_month request) `mod` 12) = Some (VDict p) ∧
    p !! "month" = Some (VInt month) ∧
    p !! "image_url" = Some (of_optional (PageUpdate.image_url payload)) ∧
    p !! "note" = Some (of_optional (PageUpdate.note payload)).
Proof.
  intros Hy Hs Hm Hid.
  set (coll := getitem db "calendar") in *. set (oid := new_id coll) in *.
  set (idx := Z.to_nat ((month - CalendarCreate.start_month request) `mod` 12)).
  set (pages := page_at (CalendarCreate.start_month request) <$> seq 0 12).
  set (cal := Calendar.mk (CalendarCreate.title request) (CalendarCreate.year request)
                (CalendarCreate.start_month request) (CalendarCreate.style request)
                pages (CalendarCreate.owner request)).
  set (db1 := <["calendar" := <[oid := model_dump cal]> coll]> db).
  assert (Hn : next_index month (dump_page <$> pages) 0 = Ok (Some idx))
    by by apply fresh_pages_next_index.
  destruct (upsert_page_found _ payload _ _ Hn) as (p & Hp & Hpm & Hu).
  assert (Hidx : (idx < 12)%nat).
  { pose proof (lookup_lt_Some _ _ _ Hp) as Hl. unfold pages in Hl.
    by rewrite !length_fmap, length_seq in Hl. }
  assert (Hp0 : p = <["month" := VInt (CalendarPage.month (page_at (CalendarCreate.start_month request) idx))]>
                    (<["image_url" := VNone]> (<["note" := VNone]> ∅))).
  { unfold pages in Hp. rewrite !list_lookup_fmap, lookup_seq_lt in Hp by done.
    simpl in Hp. by injection Hp as <-. }
  assert (Hf1 : getitem db1 "calendar" !! oid = Some (model_dump cal)).
  { unfold db1. by rewrite getitem_insert, lookup_insert_eq. }
  assert (Hu1 : upsert_page month payload (default (VList []) (model_dump cal !! "pages"))
                = Ok (<[idx := VDict (patched payload p)]> (dump_page <$> pages))).
  { by rewrite model_dump_pages. }
  exists db1. eexists. eexists. eexists. exists (patched payload p).
  split.
  { unfold create_calendar. rewrite new_calendar_Ok by done. done. }
  split.
  { by apply (update_calendar_page_ok _ _ _ _ _ _ _ _ Hm Hid Hf1 Hu1). }
  split.
  { unfold get_calendar, find_one.
    by rewrite Hid, getitem_insert, lookup_insert_eq. }
  cbn [fields _id]. split; [by rewrite lookup_insert_eq|].
  unfold written, model_dump.
  split; [by rewrite !lookup_insert_ne, lookup_insert_eq by done|].
  split; [by rewrite !lookup_insert_ne, lookup_insert_eq by done|].
  split; [by rewrite !lookup_insert_ne, lookup_insert_eq by done|].
  split; [by rewrite !lookup_insert_ne, lookup_insert_eq by done|].
  split; [by rewrite !lookup_insert_ne, lookup_insert_eq by done|].
  split; [by rewrite !lookup_insert_ne, lookup_insert_eq by done|].
  split; [by rewrite lookup_insert_ne, lookup_insert_eq by done|].
  split; [unfold pages; by rewrite length_insert, !length_fmap, length_seq|].
  split; [apply list_lookup_insert_eq; unfold pages; by rewrite !length_fmap, length_seq|].
  split; [rewrite patched_lookup_ne by done; by apply get_eq_int_true|].
  split.
  - rewrite patched_image_url. destruct (PageUpdate.image_url payload); [done|].
    rewrite Hp0. by rewrite lookup_insert_ne, lookup_insert_eq by done.
  - rewrite patched_note. destruct (PageUpdate.note payload); [done|].
    rewrite Hp0. by rewrite !lookup_insert_ne, lookup_insert_eq by done.
Qed.

(** X10. [list_calendars] and [get_calendar] agree: a document of the
    calendar collection that [get_documents] returns is listed, at its
    position, as exactly what [get_calendar] returns for its identifier
    (when the identifier parses back from its string); and the list has one
    entry per document. *)
Theorem list_calendars_agrees_with_get_calendar
    (db : Database) limit docs (i : nat) oid f :
  get_documents (Some db) "calendar" ∅ limit = Ok docs →
  docs !! i = Some (Some oid, f) →
  getitem db "calendar" !! oid = Some f →
  ObjectId (str oid) = Some oid →
  ∃ out entry,
    list_calendars (Some db) limit = Ok (VList out) ∧
    length out = length docs ∧
    out !! i = Some entry ∧
    get_calendar (Some db) (str oid) = Ok entry.
Proof.
  intros Hdocs Hi Hf Hid. do 2 eexists.
  split; [unfold list_calendars; by rewrite Hdocs|].
  split; [by rewrite length_fmap|].
  split; [by rewrite list_lookup_fmap, Hi|].
  unfold get_calendar, find_one. by rewrite Hid, Hf.
Qed.

End service.

(** ** The claims on the sample store *)

(** C1 at "Team 2025" starting in March: months 3..12 then 1, 2. *)
Lemma create_calendar_twelve_pages_witness :
  ∃ cal,
    new_calendar (CalendarCreate.mk "Team 2025" 2025 3 "classic" None) = Ok cal ∧
    CalendarPage.month <$> Calendar.pages cal = [3; 4; 5; 6; 7; 8; 9; 10; 11; 12; 1; 2].
Proof.
  destruct (create_calendar_twelve_pages hex_str sample_new_id
              (CalendarCreate.mk "Team 2025" 2025 3 "classic" None))
    as (cal & Hcal & _ & _ & Hrot & _); [simpl; lia | simpl; lia |].
  exists cal. split; [exact Hcal | exact Hrot].
Defined.

(** C2 on "Team 2025": a note for April keeps the image April had, and the
    title of the calendar. *)
Lemma update_calendar_page_frame_witness :
  ∃ db' f' ps' p',
    update_calendar_page hex_ObjectId (Some sample_db) 1735689600 team_id 4
      (PageUpdate.mk None (Some "kickoff"%string))
      = Ok (db', VDict {["status" := VStr "ok"]}) ∧
    getitem db' "calendar" !! team_id = Some f' ∧
    f' !! "pages" = Some (VList ps') ∧
    ps' !! 0%nat = Some (VDict p') ∧
    p' !! "image_url" = Some (VStr "/uploads/x.jpg") ∧
    p' !! "note" = Some (VStr "kickoff") ∧
    f' !! "title" = Some (VStr "Team 2025") ∧
    getitem db' "calendar" !! sparse_id = Some sparse_calendar.
Proof.
  destruct (update_calendar_page_frame hex_ObjectId sample_db 1735689600 team_id 4
              (PageUpdate.mk None (Some "kickoff"%string))
              team_id team_calendar (dump_page <$> team_pages) 0%nat)
    as (p & p' & ps' & f' & db' & Hp & _ & Hr & Hf' & Hps' & _ & Hfields & _ & Hp'
        & _ & Himg & Hnote & _ & Hothers & _);
    [lia | reflexivity | vm_compute; reflexivity | vm_compute; reflexivity
    | vm_compute; reflexivity |].
  exists db', f', ps', p'.
  split; [exact Hr|]. split; [exact Hf'|]. split; [exact Hps'|]. split; [exact Hp'|].
  injection Hp as <-.
  split; [rewrite Himg; vm_compute; reflexivity|].
  split; [exact Hnote|].
  split; [rewrite Hfields by discriminate; vm_compute; reflexivity|].
  rewrite Hothers by discriminate. vm_compute; reflexivity.
Defined.

(** C4 on the sparse calendar: a note for July appends the July page, with
    the note and no image. *)
Lemma update_calendar_page_appends_witness :
  ∃ db' f' p',
    update_calendar_page hex_ObjectId (Some sample_db) 1735689600 sparse_id 7
      (PageUpdate.mk None (Some "July"%string))
      = Ok (db', VDict {["status" := VStr "ok"]}) ∧
    getitem db' "calendar" !! sparse_id = Some f' ∧
    f' !! "pages" = Some (VList [dump_page (CalendarPage.mk 4 None None); VDict p']) ∧
    p' !! "month" = Some (VInt 7) ∧
    p' !! "image_url" = None ∧
    p' !! "note" = Some (VStr "July").
Proof.
  destruct (update_calendar_page_appends hex_ObjectId sample_db 1735689600 sparse_id 7
              (PageUpdate.mk None (Some "July"%string))
              sparse_id sparse_calendar [dump_page (CalendarPage.mk 4 None None)])
    as (p' & f' & db' & Hr & Hf' & Hps' & Hm & Himg & Hnote & _);
    [lia | reflexivity | vm_compute; reflexivity | vm_compute; reflexivity
    | vm_compute; reflexivity |].
  exists db', f', p'.
  split; [exact Hr|]. split; [exact Hf'|]. split; [exact Hps'|]. split; [exact Hm|].
  split; [exact Himg | exact Hnote].
Defined.

Lemma sparse_calendar_one_page_per_month : calendar_one_page_per_month sparse_calendar.
Proof.
  intros ps Hps. unfold sparse_calendar in Hps.
  rewrite model_dump_pages in Hps. injection Hps as <-.
  apply (bool_decide_unpack _). vm_compute. reflexivity.
Qed.

(** C5 on a store that holds the sparse calendar beside one with two April
    pages: the sparse calendar has at most one page per month value after a
    July note for it, after an April note for the other calendar, and after
    a new calendar is created. *)
Lemma one_page_per_month_preserved_witness :
  ¬ calendar_one_page_per_month twice_calendar ∧
  (∃ db' f',
     state_after (Some mixed_db)
       (update_calendar_page hex_ObjectId (Some mixed_db) 1735689600 sparse_id 7
          (PageUpdate.mk None (Some "July"%string))) = Some db' ∧
     getitem db' "calendar" !! sparse_id = Some f' ∧
     calendar_one_page_per_month f') ∧
  (∃ db' f',
     state_after (Some mixed_db)
       (update_calendar_page hex_ObjectId (Some mixed_db) 1735689600 twice_id 4
          (PageUpdate.mk None (Some "again"%string))) = Some db' ∧
     getitem db' "calendar" !! sparse_id = Some f' ∧
     calendar_one_page_per_month f') ∧
  (∃ db' f',
     state_after (Some mixed_db)
       (create_calendar hex_str sample_new_id (Some mixed_db)
          (CalendarCreate.mk "Next" 2026 11 "classic" None)) = Some db' ∧
     getitem db' "calendar" !! sparse_id = Some f' ∧
     calendar_one_page_per_month f').
Proof.
  assert (Hf : getitem mixed_db "calendar" !! sparse_id = Some sparse_calendar)
    by (vm_compute; reflexivity).
  split; [|split; [|split]].
  - intros Hinv.
    assert (Hps : twice_calendar !! "pages"
                  = Some (VList (dump_page <$> [CalendarPage.mk 4 None None;
                                                CalendarPage.mk 4 None None])))
      by (vm_compute; reflexivity).
    specialize (Hinv _ Hps). unfold one_page_per_month in Hinv.
    rewrite omap_page_month_dump in Hinv. simpl in Hinv.
    apply NoDup_cons_1_1 in Hinv. apply Hinv, list_elem_of_here.
  - exact (proj1 (one_page_per_month_preserved hex_ObjectId hex_str sample_new_id mixed_db
                    1735689600 sparse_id 7 (PageUpdate.mk None (Some "July"%string))
                    (CalendarCreate.mk "Next" 2026 11 "classic" None)
                    sparse_id sparse_calendar Hf sparse_calendar_one_page_per_month)).
  - exact (proj1 (one_page_per_month_preserved hex_ObjectId hex_str sample_new_id mixed_db
                    1735689600 twice_id 4 (PageUpdate.mk None (Some "again"%string))
                    (CalendarCreate.mk "Next" 2026 11 "classic" None)
                    sparse_id sparse_calendar Hf sparse_calendar_one_page_per_month)).
  - exact (proj1 (proj2 (one_page_per_month_preserved hex_ObjectId hex_str sample_new_id
                    mixed_db 1735689600 sparse_id 7 (PageUpdate.mk None (Some "July"%string))
                    (CalendarCreate.mk "Next" 2026 11 "classic" None)
                    sparse_id sparse_calendar Hf sparse_calendar_one_page_per_month))).
Defined.

(** C6 at months 0 and 13, with no store and an identifier that does not
    parse. *)
Lemma update_calendar_page_month_out_of_range_witness :
  update_calendar_page hex_ObjectId None 1735689600 "not-an-id" 0 (PageUpdate.mk None None)
    = Raise (HTTPException 400 "Month must be 1..12") ∧
  update_calendar_page hex_ObjectId (Some sample_db) 1735689600 team_id 13
    (PageUpdate.mk None None)
    = Raise (HTTPException 400 "Month must be 1..12").
Proof.
  split.
  - apply (update_calendar_page_month_out_of_range hex_ObjectId None 1735689600
             "not-an-id" 0 (PageUpdate.mk None None)). lia.
  - apply (update_calendar_page_month_out_of_range hex_ObjectId (Some sample_db) 1735689600
             team_id 13 (PageUpdate.mk None None)). lia.
Defined.

(** C7 as claimed fails when there is no store: an identifier that does not
    parse gets "Database not available", which is not an InvalidIdentifier
    failure. *)
Lemma get_calendar_invalid_id_no_store :
  hex_ObjectId "not-an-id" = None ∧
  get_calendar hex_ObjectId hex_str None "not-an-id"
    = Raise (HTTPException 500 "Database not available") ∧
  ¬ ∃ e, get_calendar hex_ObjectId hex_str None "not-an-id" = Raise e ∧
         failure_of e = Some InvalidIdentifier.
Proof.
  split; [reflexivity|]. split; [reflexivity|].
  intros (e & He & Hfail). injection He as <-. discriminate Hfail.
Qed.

(** C7 on the sample store: "Team 2025" comes back with its identifier as
    [id], an identifier that does not parse is refused, and one that matches
    no calendar is not found. *)
Lemma get_calendar_outcomes_witness :
  (∃ doc, get_calendar hex_ObjectId hex_str (Some sample_db) team_id = Ok (VDict doc) ∧
          doc !! "id" = Some (VStr team_id) ∧
          doc !! "title" = Some (VStr "Team 2025")) ∧
  get_calendar hex_ObjectId hex_str (Some sample_db) "not-an-id"
    = Raise (HTTPException 400 "Invalid calendar id") ∧
  get_calendar hex_ObjectId hex_str (Some sample_db) "64b7f0c2a1d3e4f5a6b7c8db"
    = Raise (HTTPException 404 "Calendar not found").
Proof.
  split; [|split].
  - destruct (get_calendar_outcomes hex_ObjectId hex_str sample_db team_id)
      as (_ & _ & Hfound & _).
    destruct (Hfound team_id team_calendar) as (doc & Hdoc & Hid & Hrest);
      [reflexivity | vm_compute; reflexivity |].
    exists doc. split; [exact Hdoc|]. split; [exact Hid|].
    rewrite Hrest by discriminate. vm_compute; reflexivity.
  - apply (get_calendar_outcomes hex_ObjectId hex_str sample_db "not-an-id"). reflexivity.
  - destruct (get_calendar_outcomes hex_ObjectId hex_str sample_db "64b7f0c2a1d3e4f5a6b7c8db")
      as (_ & Hmissing & _).
    apply (Hmissing "64b7f0c2a1d3e4f5a6b7c8db"%string); [reflexivity | vm_compute; reflexivity].
Defined.

(** C8 as claimed fails when there is no store: a valid month and an
    identifier that does not parse get "Database not available", which is
    not an InvalidIdentifier failure. *)
Lemma update_calendar_page_invalid_id_no_store :
  hex_ObjectId "not-an-id" = None ∧
  update_calendar_page hex_ObjectId None 1735689600 "not-an-id" 4 (PageUpdate.mk None None)
    = Raise (HTTPException 500 "Database not available") ∧
  ¬ ∃ e, update_calendar_page hex_ObjectId None 1735689600 "not-an-id" 4
           (PageUpdate.mk None None) = Raise e ∧
         failure_of e = Some InvalidIdentifier.
Proof.
  split; [reflexivity|]. split; [reflexivity|].
  intros (e & He & Hfail). injection He as <-. discriminate Hfail.
Qed.

(** C8 on the sample store and with no store. *)
Lemma update_calendar_page_invalid_id_witness :
  update_calendar_page hex_ObjectId (Some sample_db) 1735689600 "not-an-id" 4
    (PageUpdate.mk None None)
    = Raise (HTTPException 400 "Invalid calendar id") ∧
  update_calendar_page hex_ObjectId None 1735689600 "not-an-id" 4 (PageUpdate.mk None None)
    = Raise (HTTPException 500 "Database not available").
Proof.
  split.
  - apply (update_calendar_page_invalid_id hex_ObjectId (Some sample_db) 1735689600
             "not-an-id" 4 (PageUpdate.mk None None)); [lia | reflexivity].
  - apply (update_calendar_page_invalid_id hex_ObjectId None 1735689600
             "not-an-id" 4 (PageUpdate.mk None None)); [lia | reflexivity].
Defined.

(** C9: the year 1899 is refused, with or without a store; an empty title
    is accepted. *)
Lemma create_calendar_invalid_field_witness :
  (∃ e, create_calendar hex_str sample_new_id None
          (CalendarCreate.mk "Team 2025" 1899 4 "classic" None) = Raise e ∧
        failure_of e = Some InvalidField) ∧
  (∃ r, create_calendar hex_str sample_new_id (Some sample_db)
          (CalendarCreate.mk "" 2025 4 "classic" None) = Ok r).
Proof.
  split.
  - apply (create_calendar_invalid_field hex_str sample_new_id None
             (CalendarCreate.mk "Team 2025" 1899 4 "classic" None)).
    left. simpl. lia.
  - apply (create_calendar_invalid_field hex_str sample_new_id None
             (CalendarCreate.mk "" 2025 4 "classic" None)); lia.
Defined.

(** C10 on the sparse calendar: an empty update of September appends a page
    that holds the month only; an empty update of April leaves the pages. *)
Lemma update_calendar_page_empty_payload_witness :
  (∃ db' f' p',
     update_calendar_page hex_ObjectId (Some sample_db) 1735689600 sparse_id 9
       (PageUpdate.mk None None) = Ok (db', VDict {["status" := VStr "ok"]}) ∧
     getitem db' "calendar" !! sparse_id = Some f' ∧
     f' !! "updated_at" = Some (VDatetime 1735689600) ∧
     f' !! "pages" = Some (VList [dump_page (CalendarPage.mk 4 None None); VDict p']) ∧
     p' !! "month" = Some (VInt 9) ∧ p' !! "image_url" = None ∧ p' !! "note" = None) ∧
  (∃ db' f',
     update_calendar_page hex_ObjectId (Some sample_db) 1735689600 sparse_id 4
       (PageUpdate.mk None None) = Ok (db', VDict {["status" := VStr "ok"]}) ∧
     getitem db' "calendar" !! sparse_id = Some f' ∧
     f' !! "updated_at" = Some (VDatetime 1735689600) ∧
     f' !! "pages" = Some (VList [dump_page (CalendarPage.mk 4 None None)])).
Proof.
  split.
  - destruct (update_calendar_page_empty_payload hex_ObjectId sample_db 1735689600
                sparse_id 9 sparse_id sparse_calendar
                [dump_page (CalendarPage.mk 4 None None)] None)
      as (f' & db' & Hr & Hf' & Hupd & _ & p' & Hps' & Hm & Himg & Hnote);
      [lia | reflexivity | vm_compute; reflexivity | vm_compute; reflexivity
      | vm_compute; reflexivity |].
    exists db', f', p'. repeat (split; [eassumption|]). exact Hnote.
  - destruct (update_calendar_page_empty_payload hex_ObjectId sample_db 1735689600
                sparse_id 4 sparse_id sparse_calendar
                [dump_page (CalendarPage.mk 4 None None)] (Some 0%nat))
      as (f' & db' & Hr & Hf' & Hupd & _ & Hps');
      [lia | reflexivity | vm_compute; reflexivity | vm_compute; reflexivity
      | vm_compute; reflexivity |].
    exists db', f'. repeat (split; [eassumption|]). exact Hps'.
Defined.

(** ** Uploads *)

Lemma rfind_range c (l : list Ascii.ascii) : -1 ≤ rfind c l < Z.of_nat (length l).
Proof.
  induction l as [|a l IH]; simpl; [lia|].
  destruct (0 <=? rfind c l) eqn:Hk; [lia|].
  destruct (Ascii.eqb a c); lia.
Qed.

Lemma rfind_lookup c (l : list Ascii.ascii) :
  0 ≤ rfind c l → l !! Z.to_nat (rfind c l) = Some c.
Proof.
  induction l as [|a l IH]; simpl; [lia|].
  destruct (0 <=? rfind c l) eqn:Hk.
  - intros _. replace (Z.to_nat (rfind c l + 1)) with (S (Z.to_nat (rfind c l))) by lia.
    apply IH. lia.
  - destruct (Ascii.eqb a c) eqn:Ha; [|lia].
    intros _. apply Ascii.eqb_eq in Ha. by subst.
Qed.

Lemma rfind_last c (l : list Ascii.ascii) (j : nat) :
  l !! j = Some c → Z.of_nat j ≤ rfind c l.
Proof.
  revert j. induction l as [|a l IH]; intros [|j] Hj; simpl in *; try done.
  - injection Hj as ->. rewrite Ascii.eqb_refl.
    pose proof (rfind_range c l). destruct (0 <=? rfind c l); lia.
  - specialize (IH j Hj). destruct (0 <=? rfind c l) eqn:Hk; lia.
Qed.

Lemma string_of_list_ascii_app (l1 l2 : list Ascii.ascii) :
  String.string_of_list_ascii (l1 ++ l2)
  = String.string_of_list_ascii l1 +:+ String.string_of_list_ascii l2.
Proof. induction l1 as [|a l1 IH]; simpl; [done|]. by rewrite IH. Qed.

Lemma list_ascii_of_string_app (s1 s2 : string) :
  String.list_ascii_of_string (s1 +:+ s2)
  = String.list_ascii_of_string s1 ++ String.list_ascii_of_string s2.
Proof. induction s1 as [|a s1 IH]; simpl; [done|]. by rewrite IH. Qed.

Lemma append_empty_r (s : string) : s +:+ EmptyString = s.
Proof.
  induction s as [|a s IH]; [done|].
  change (String a (s +:+ EmptyString) = String a s). by rewrite IH.
Qed.

(** [os.path.splitext]: root and extension make up the path, and the
    extension is empty or a dot followed by no dot; it holds no
    separator. *)
Lemma splitext_ext p :
  (fst (splitext p) +:+ snd (splitext p))%string = p ∧
  (os_sep ∉ String.list_ascii_of_string (snd (splitext p))) ∧
  (snd (splitext p) = EmptyString ∨
   ∃ t, snd (splitext p) = String os_extsep t ∧ os_extsep ∉ String.list_ascii_of_string t).
Proof.
  unfold splitext. set (l := String.list_ascii_of_string p).
  destruct ((rfind os_extsep l >? rfind os_sep l) && _) eqn:Hc; simpl.
  2:{ split; [apply append_empty_r|]. split; [apply not_elem_of_nil|by left]. }
  apply andb_true_iff in Hc as [Hgt _].
  pose proof (rfind_range os_sep l) as Hs. pose proof (rfind_range os_extsep l) as Hd.
  assert (H0 : 0 ≤ rfind os_extsep l) by lia.
  set (d := Z.to_nat (rfind os_extsep l)).
  pose proof (rfind_lookup _ _ H0) as Hld. fold d in Hld.
  rewrite String.list_ascii_of_string_of_list_ascii.
  split; [|split].
  - rewrite <- string_of_list_ascii_app, take_drop.
    apply String.string_of_list_ascii_of_string.
  - intros Hin. apply list_elem_of_lookup in Hin as [j Hj].
    rewrite lookup_drop in Hj. apply rfind_last in Hj. lia.
  - right. exists (String.string_of_list_ascii (drop (S d) l)).
    rewrite String.list_ascii_of_string_of_list_ascii. split.
    + rewrite (drop_S _ _ _ Hld). done.
    + intros Hin. apply list_elem_of_lookup in Hin as [j Hj].
      rewrite lookup_drop in Hj. apply rfind_last in Hj. lia.
Qed.

Lemma join_UPLOAD_DIR name :
  String.prefix "/" name = false → join UPLOAD_DIR name = "uploads/" +:+ name.
Proof. intros Hn. unfold join. by rewrite Hn. Qed.

Lemma prefix_sep_false (s : string) :
  os_sep ∉ String.list_ascii_of_string s → String.prefix "/" s = false.
Proof.
  intros Hs. destruct s as [|a s]; [done|]. simpl.
  case_match; [|done]. subst a.
  exfalso. apply Hs. simpl. apply list_elem_of_here.
Qed.

Section uploads.
Context {FS : Type}.
Variable open_wb : FS → string → string → result FS.
Variable path_exists : FS → string → bool.

(** X11. When [upload_image] succeeds, with a time stamp that holds no
    "/": the content type starts with "image/"; the one write goes to
    [uploads/<stamp><ext>], where [ext] is the extension [os.path.splitext]
    gives for the client's file name; the stored name holds no "/", so the
    file is a direct child of the upload directory whatever the client's
    file name; and the URL returned is "/uploads/" followed by that
    name. *)
Theorem upload_image_stays_in_upload_dir fs stamp file fs' r :
  os_sep ∉ String.list_ascii_of_string stamp →
  upload_image open_wb fs stamp file = Ok (fs', r) →
  ∃ content_type filename ext,
    UploadFile.content_type file = Some content_type ∧
    String.prefix "image/" content_type = true ∧
    UploadFile.filename file = Some filename ∧
    ext = (splitext filename).2 ∧
    (os_sep ∉ String.list_ascii_of_string (stamp +:+ ext)) ∧
    open_wb fs ("uploads/" +:+ stamp +:+ ext) (UploadFile.content file) = Ok fs' ∧
    r = VDict {["url" := VStr ("/uploads/" +:+ stamp +:+ ext)]}.
Proof.
  intros Hstamp Hu. unfold upload_image in Hu.
  destruct (UploadFile.content_type file) as [ct|]; [|done].
  destruct (String.prefix "image/" ct) eqn:Hct; [|done]. simpl in Hu.
  destruct (UploadFile.filename file) as [fn|]; [|done].
  destruct (splitext_ext fn) as (_ & Hsep & _).
  assert (Hname : os_sep ∉ String.list_ascii_of_string (stamp +:+ (splitext fn).2)).
  { rewrite list_ascii_of_string_app. by intros [?|?]%elem_of_app. }
  rewrite (join_UPLOAD_DIR _ (prefix_sep_false _ Hname)) in Hu.
  destruct (open_wb fs _ _) as [fs1|e] eqn:Hw; [|done].
  simpl in Hu. injection Hu as <- <-.
  by exists ct, fn, (splitext fn).2.
Qed.

(** X12. Upload, then download.  On a file system where a file that was
    written exists, the URL a successful [upload_image] returns is
    "/uploads/<name>" for a name without "/", and [get_uploaded_file] with
    that name answers with the file the upload wrote, [uploads/<name>]. *)
Theorem upload_then_get_uploaded_file fs stamp file fs' r :
  (∀ fs0 path content fs1, open_wb fs0 path content = Ok fs1 → path_exists fs1 path = true) →
  os_sep ∉ String.list_ascii_of_string stamp →
  upload_image open_wb fs stamp file = Ok (fs', r) →
  ∃ name,
    r = VDict {["url" := VStr ("/uploads/" +:+ name)]} ∧
    (os_sep ∉ String.list_ascii_of_string name) ∧
    open_wb fs ("uploads/" +:+ name) (UploadFile.content file) = Ok fs' ∧
    get_uploaded_file path_exists fs' name = Ok (FileResponse ("uploads/" +:+ name)).
Proof.
  intros Hfs Hstamp Hu. unfold upload_image in Hu.
  destruct (UploadFile.content_type file) as [ct|]; [|done].
  destruct (String.prefix "image/" ct) eqn:Hct; [|done]. simpl in Hu.
  destruct (UploadFile.filename file) as [fn|]; [|done].
  destruct (splitext_ext fn) as (_ & Hsep & _).
  assert (Hname : os_sep ∉ String.list_ascii_of_string (stamp +:+ (splitext fn).2)).
  { rewrite list_ascii_of_string_app. by intros [?|?]%elem_of_app. }
  rewrite (join_UPLOAD_DIR _ (prefix_sep_false _ Hname)) in Hu.
  destruct (open_wb fs _ _) as [fs1|e] eqn:Hw; [|done].
  simpl in Hu. injection Hu as <- <-.
  exists (stamp +:+ (splitext fn).2).
  split; [done|]. split; [done|]. split; [done|].
  unfold get_uploaded_file.
  rewrite (join_UPLOAD_DIR _ (prefix_sep_false _ Hname)).
  by rewrite (Hfs _ _ _ _ Hw).
Qed.

(** X13. [get_uploaded_file] answers "File not found" (status 404) exactly
    when the path [os.path.join] builds does not exist; for a file name
    that does not start with "/" that path is [uploads/<filename>], and for
    one that does it is the file name itself. *)
Theorem get_uploaded_file_outcomes fs filename :
  join UPLOAD_DIR filename
    = (if String.prefix "/" filename then filename else "uploads/" +:+ filename) ∧
  (get_uploaded_file path_exists fs filename = Raise (HTTPException 404 "File not found")
   ↔ path_exists fs (join UPLOAD_DIR filename) = false) ∧
  (get_uploaded_file path_exists fs filename = Ok (FileResponse (join UPLOAD_DIR filename))
   ↔ path_exists fs (join UPLOAD_DIR filename) = true).
Proof.
  split; [unfold join; by destruct (String.prefix "/" filename)|].
  unfold get_uploaded_file.
  destruct (path_exists fs (join UPLOAD_DIR filename)); simpl; split; split; done.
Qed.

End uploads.

(** ** The further properties on the sample store *)

Lemma sample_update_july :
  update_calendar_page hex_ObjectId (Some sample_db) 1735689600 sparse_id 7
    (PageUpdate.mk None (Some "July"%string))
  = Ok (july_db, VDict {["status" := VStr "ok"]}).
Proof. vm_compute. reflexivity. Qed.

(** X1 on the sample store: an identifier that parses and names no
    calendar. *)
Lemma update_calendar_page_not_found_witness :
  update_calendar_page hex_ObjectId (Some sample_db) 1735689600
    "64b7f0c2a1d3e4f5a6b7c8db" 4 (PageUpdate.mk None None)
  = Raise (HTTPException 404 "Calendar not found").
Proof.
  apply (update_calendar_page_not_found hex_ObjectId sample_db 1735689600
           "64b7f0c2a1d3e4f5a6b7c8db" 4 (PageUpdate.mk None None)
           "64b7f0c2a1d3e4f5a6b7c8db"%string);
    [lia | reflexivity | vm_compute; reflexivity].
Defined.

(** X2 on the sample store: the July note leaves the same two calendars,
    and "Team 2025" as it was. *)
Lemma update_calendar_page_same_calendars_witness :
  dom (getitem july_db "calendar") = dom (getitem sample_db "calendar") ∧
  getitem july_db "calendar" !! team_id = getitem sample_db "calendar" !! team_id.
Proof.
  destruct (update_calendar_page_same_calendars hex_ObjectId sample_db july_db 1735689600
              sparse_id 7 (PageUpdate.mk None (Some "July"%string)) _ sample_update_july)
    as (Hdom & Hothers & _).
  split; [exact Hdom|]. apply Hothers. vm_compute. intros [=].
Defined.

(** X3 on the sample store: the sparse calendar had one page and has at
    most two after the July note; and on "Team 2025", whose April page has
    an image, a note for April leaves a non-null image. *)
Lemma update_calendar_page_keeps_pages_witness :
  (∃ f' ps',
     getitem july_db "calendar" !! sparse_id = Some f' ∧
     f' !! "pages" = Some (VList ps') ∧
     (1 ≤ length ps' ≤ 2)%nat) ∧
  (∃ db' r ps' v,
     update_calendar_page hex_ObjectId (Some sample_db) 1735689600 team_id 4
       (PageUpdate.mk None (Some "kickoff"%string)) = Ok (db', r) ∧
     pages_of (Some db') team_id = Some (VList ps') ∧
     (ps' !! 0%nat ≫= λ page, match page with VDict p' => p' !! "image_url" | _ => None end)
       = Some v ∧
     v ≠ VNone).
Proof.
  split.
  - destruct (update_calendar_page_keeps_pages hex_ObjectId sample_db july_db 1735689600
                sparse_id 7 (PageUpdate.mk None (Some "July"%string)) _ sample_update_july)
      as (oid & f & f' & ps & ps' & Hid & Hf & Hf' & Hps & Hps' & Hlen & _).
    assert (oid = sparse_id) as ->
      by (vm_compute in Hid; injection Hid as <-; reflexivity).
    assert (Hf0 : getitem sample_db "calendar" !! sparse_id = Some sparse_calendar)
      by (vm_compute; reflexivity).
    rewrite Hf0 in Hf. injection Hf as <-.
    assert (length ps = 1%nat) as Hone.
    { assert (Hp0 : sparse_calendar !! "pages"
                    = Some (VList [dump_page (CalendarPage.mk 4 None None)]))
        by (vm_compute; reflexivity).
      rewrite Hp0 in Hps. by injection Hps as <-. }
    exists f', ps'. split; [exact Hf'|]. split; [exact Hps'|]. lia.
  - destruct (update_calendar_page hex_ObjectId (Some sample_db) 1735689600 team_id 4
                (PageUpdate.mk None (Some "kickoff"%string))) as [[db' r]|e] eqn:Hr;
      [|vm_compute in Hr; discriminate Hr].
    destruct (update_calendar_page_keeps_pages hex_ObjectId sample_db db' 1735689600
                team_id 4 (PageUpdate.mk None (Some "kickoff"%string)) r Hr)
      as (oid & f & f' & ps & ps' & Hid & Hf & Hf' & Hps & Hps' & _ & Hkeep).
    assert (oid = team_id) as ->
      by (vm_compute in Hid; injection Hid as <-; reflexivity).
    assert (Hf0 : getitem sample_db "calendar" !! team_id = Some team_calendar)
      by (vm_compute; reflexivity).
    rewrite Hf0 in Hf. injection Hf as <-.
    assert (Hp0 : team_calendar !! "pages" = Some (VList (dump_page <$> team_pages)))
      by (vm_compute; reflexivity).
    rewrite Hp0 in Hps. injection Hps as <-.
    assert (Hpages : pages_of (Some db') team_id = Some (VList ps')).
    { unfold pages_of. simpl. rewrite Hf'. exact Hps'. }
    destruct (Hkeep 0%nat (dump_page (CalendarPage.mk 4 (Some "/uploads/x.jpg"%string) None))
                eq_refl) as [Hsame|(p & p' & Hp & Hp' & _ & _ & _ & Hnonnull)].
    + exists db', r, ps', (VStr "/uploads/x.jpg").
      split; [reflexivity|]. split; [exact Hpages|].
      rewrite Hsame. split; [vm_compute; reflexivity | discriminate].
    + injection Hp as <-.
      destruct (Hnonnull "image_url"%string (VStr "/uploads/x.jpg"))
        as (v1 & Hv1 & Hne); [vm_compute; reflexivity | discriminate |].
      exists db', r, ps', v1.
      split; [reflexivity|]. split; [exact Hpages|].
      rewrite Hp'. split; [exact Hv1 | exact Hne].
Defined.

(** X4 on the sample store: after the July note a search for July finds a
    page with that note. *)
Lemma update_calendar_page_sets_fields_witness :
  ∃ f' ps' idx p',
    getitem july_db "calendar" !! sparse_id = Some f' ∧
    f' !! "pages" = Some (VList ps') ∧
    next_index 7 ps' 0 = Ok (Some idx) ∧
    ps' !! idx = Some (VDict p') ∧
    p' !! "note" = Some (VStr "July").
Proof.
  destruct (update_calendar_page_sets_fields hex_ObjectId sample_db july_db 1735689600
              sparse_id 7 (PageUpdate.mk None (Some "July"%string)) _ sample_update_july)
    as (oid & f' & ps' & idx & p' & Hid & Hf' & Hps' & Hn & Hp' & _ & _ & Hnote).
  assert (oid = sparse_id) as -> by (vm_compute in Hid; injection Hid as <-; reflexivity).
  exists f', ps', idx, p'.
  split; [exact Hf'|]. split; [exact Hps'|]. split; [exact Hn|]. split; [exact Hp'|].
  apply Hnote. reflexivity.
Defined.

(** X5 on the sample store: reading the sparse calendar after the July
    note. *)
Lemma get_calendar_after_update_witness :
  ∃ doc,
    get_calendar hex_ObjectId hex_str (Some july_db) sparse_id = Ok (VDict doc) ∧
    doc !! "id" = Some (VStr sparse_id) ∧
    doc !! "updated_at" = Some (VDatetime 1735689600).
Proof.
  destruct (get_calendar_after_update hex_ObjectId hex_str sample_db july_db 1735689600
              sparse_id 7 (PageUpdate.mk None (Some "July"%string)) _ sample_update_july)
    as (oid & f' & doc & Hid & _ & Hget & Hdocid & Hupd & _).
  assert (oid = sparse_id) as -> by (vm_compute in Hid; injection Hid as <-; reflexivity).
  exists doc. split; [exact Hget|]. split; [exact Hdocid | exact Hupd].
Defined.

(** X6 on "Team 2025": a note for April and an image for May, in either
    order. *)
Lemma update_calendar_page_commute_witness :
  let april := PageUpdate.mk None (Some "kickoff"%string) in
  let may := PageUpdate.mk (Some "/uploads/may.png"%string) None in
  let sa := state_after (Some sample_db)
              (update_calendar_page hex_ObjectId (Some sample_db) 1 team_id 4 april) in
  let sb := state_after (Some sample_db)
              (update_calendar_page hex_ObjectId (Some sample_db) 1 team_id 5 may) in
  state_after sa (update_calendar_page hex_ObjectId sa 2 team_id 5 may)
  = state_after sb (update_calendar_page hex_ObjectId sb 2 team_id 4 april).
Proof.
  intros april may.
  apply (update_calendar_page_commute hex_ObjectId sample_db 1 2 team_id 4 5 april may
           team_id team_calendar (dump_page <$> team_pages) 0%nat 1%nat);
    [lia | lia | lia | reflexivity | vm_compute; reflexivity | vm_compute; reflexivity
    | vm_compute; reflexivity | vm_compute; reflexivity].
Defined.

(** X8 on a calendar that starts in April: June is the third page. *)
Lemma created_calendar_has_every_month_witness :
  next_index 6 (dump_page <$> (page_at 4 <$> seq 0 12)) 0 = Ok (Some 2%nat).
Proof.
  exact (created_calendar_has_every_month
           (CalendarCreate.mk "Team 2025" 2025 4 "classic" None)
           (Calendar.mk "Team 2025" 2025 4 "classic" (page_at 4 <$> seq 0 12) None)
           6 eq_refl ltac:(lia)).
Defined.

(** X9 on the sample store: a calendar that starts in November, then an
    image for January, the third page. *)
Lemma create_update_get_witness :
  ∃ db1 db2 doc ps p,
    create_calendar hex_str sample_new_id (Some sample_db)
      (CalendarCreate.mk "Next" 2026 11 "classic" None)
      = Ok (db1, VDict {["id" := VStr "64b7f0c2a1d3e4f5a6b7c8db"]}) ∧
    update_calendar_page hex_ObjectId (Some db1) 1735689600 "64b7f0c2a1d3e4f5a6b7c8db" 1
      (PageUpdate.mk (Some "/uploads/jan.png"%string) None)
      = Ok (db2, VDict {["status" := VStr "ok"]}) ∧
    get_calendar hex_ObjectId hex_str (Some db2) "64b7f0c2a1d3e4f5a6b7c8db"
      = Ok (VDict doc) ∧
    doc !! "title" = Some (VStr "Next") ∧
    doc !! "pages" = Some (VList ps) ∧
    ps !! 2%nat = Some (VDict p) ∧
    p !! "month" = Some (VInt 1) ∧
    p !! "image_url" = Some (VStr "/uploads/jan.png") ∧
    p !! "note" = Some VNone.
Proof.
  destruct (create_update_get hex_ObjectId hex_str sample_new_id sample_db
              (CalendarCreate.mk "Next" 2026 11 "classic" None) 1735689600 1
              (PageUpdate.mk (Some "/uploads/jan.png"%string) None))
    as (db1 & db2 & doc & ps & p & Hc & Hu & Hg & _ & Ht & _ & _ & _ & _ & _ & Hps & _
        & Hp & Hm & Hi & Hn);
    [simpl; lia | simpl; lia | lia | reflexivity |].
  exists db1, db2, doc, ps, p.
  split; [exact Hc|]. split; [exact Hu|]. split; [exact Hg|]. split; [exact Ht|].
  split; [exact Hps|]. split; [exact Hp|]. split; [exact Hm|].
  split; [exact Hi | exact Hn].
Defined.

(** X10 on the sample store: "Team 2025" is listed first, as [get_calendar]
    returns it. *)
Lemma list_calendars_agrees_with_get_calendar_witness :
  ∃ out entry,
    list_calendars hex_str sample_get_documents (Some sample_db) 50 = Ok (VList out) ∧
    length out = 2%nat ∧
    out !! 0%nat = Some entry ∧
    get_calendar hex_ObjectId hex_str (Some sample_db) team_id = Ok entry.
Proof.
  destruct (list_calendars_agrees_with_get_calendar hex_ObjectId hex_str
              sample_get_documents sample_db 50
              [(Some team_id, team_calendar); (Some sparse_id, sparse_calendar)]
              0%nat team_id team_calendar)
    as (out & entry & Hl & Hlen & Hout & Hget);
    [vm_compute; reflexivity | reflexivity | vm_compute; reflexivity | reflexivity |].
  exists out, entry. split; [exact Hl|]. split; [exact Hlen|].
  split; [exact Hout | exact Hget].
Defined.

Lemma cat_stamp_no_sep : os_sep ∉ String.list_ascii_of_string cat_stamp.
Proof. apply (bool_decide_unpack _). vm_compute. reflexivity. Qed.

Lemma sample_upload_cat :
  upload_image map_open_wb ∅ cat_stamp cat_upload
  = Ok ({["uploads/20250101120000000000.JPG"%string := "bytes"%string]},
        VDict {["url" := VStr "/uploads/20250101120000000000.JPG"]}).
Proof. vm_compute. reflexivity. Qed.

Lemma map_open_wb_exists (fs0 : gmap string string) path content fs1 :
  map_open_wb fs0 path content = Ok fs1 → map_path_exists fs1 path = true.
Proof.
  intros [= <-]. unfold map_path_exists. apply bool_decide_eq_true.
  rewrite lookup_insert_eq. by eexists.
Qed.

(** X11 on the sample upload: the directories and the first dot of the
    client's file name are gone; the file is [uploads/<stamp>.JPG]. *)
Lemma upload_image_stays_in_upload_dir_witness :
  ∃ ext,
    ext = ".JPG"%string ∧
    map_open_wb ∅ ("uploads/" +:+ cat_stamp +:+ ext) "bytes"
    = Ok ({["uploads/20250101120000000000.JPG"%string := "bytes"%string]}
            : gmap string string).
Proof.
  destruct (upload_image_stays_in_upload_dir map_open_wb ∅ cat_stamp cat_upload _ _
              cat_stamp_no_sep sample_upload_cat)
    as (ct & fn & ext & _ & _ & Hfn & Hext & _ & Hw & _).
  injection Hfn as <-. exists ext. split; [rewrite Hext; reflexivity | exact Hw].
Defined.

(** X12 on the sample upload: the URL returned is served. *)
Lemma upload_then_get_uploaded_file_witness :
  get_uploaded_file map_path_exists
    ({["uploads/20250101120000000000.JPG"%string := "bytes"%string]} : gmap string string)
    "20250101120000000000.JPG"
  = Ok (FileResponse "uploads/20250101120000000000.JPG").
Proof.
  destruct (upload_then_get_uploaded_file map_open_wb map_path_exists ∅ cat_stamp
              cat_upload _ _ map_open_wb_exists cat_stamp_no_sep sample_upload_cat)
    as (name & Hr & _ & _ & Hget).
  assert (name = "20250101120000000000.JPG"%string) as ->.
  { apply (f_equal (λ v, match v with
                         | VDict d => match d !! "url" with
                                      | Some (VStr u) => u
                                      | _ => EmptyString
                                      end
                         | _ => EmptyString
                         end)) in Hr.
    rewrite !lookup_singleton_eq in Hr. apply (inj (String.app "/uploads/")). done. }
  exact Hget.
Defined.

(** ** Diagnostics *)

(** X14. Whatever the database handle, [test_database] reports the
    backend as running and reports [database_url] and [database_name] from
    the environment alone: "Set" exactly when the variable is set to a
    non-empty string.  What the handle suggested is overwritten. *)
Theorem test_database_reports_environment (db : option Handle.t) (environ : gmap string string) :
  test_database db environ !! "backend" = Some (VStr "✅ Running") ∧
  test_database db environ !! "database_url"
    = Some (VStr (if getenv_true environ "DATABASE_URL" then "✅ Set" else "❌ Not Set")) ∧
  test_database db environ !! "database_name"
    = Some (VStr (if getenv_true environ "DATABASE_NAME" then "✅ Set" else "❌ Not Set")).
Proof.
  unfold test_database.
  split; [|split; [by rewrite lookup_insert_ne, lookup_insert_eq by done
                  |by rewrite lookup_insert_eq]].
  rewrite !(lookup_insert_ne _ _ "backend") by done.
  destruct db as [[n [l|m]]|]; cbn [Handle.list_collection_names Handle.name];
    by rewrite !(lookup_insert_ne _ _ "backend"), lookup_insert_eq by done.
Qed.

(** X15. [test_database] lists at most ten collections: the first ten
    names the handle gives, and none when there is no handle or the listing
    fails; and it reports "Connected" exactly when there is a handle. *)
Theorem test_database_collections (db : option Handle.t) (environ : gmap string string) :
  test_database db environ !! "collections"
    = Some (VList (VStr <$>
        match db with
        | Some h =>
            match Handle.list_collection_names h with
            | Names collections => take 10 collections
            | Failed _ => []
            end
        | None => []
        end)) ∧
  (∃ names, test_database db environ !! "collections" = Some (VList (VStr <$> names)) ∧
            (length names ≤ 10)%nat) ∧
  test_database db environ !! "connection_status"
    = Some (VStr match db with Some _ => "Connected" | None => "Not Connected" end).
Proof.
  assert (Hc : test_database db environ !! "collections"
    = Some (VList (VStr <$>
        match db with
        | Some h =>
            match Handle.list_collection_names h with
            | Names collections => take 10 collections
            | Failed _ => []
            end
        | None => []
        end))).
  { unfold test_database. rewrite !(lookup_insert_ne _ _ "collections") by done.
    destruct db as [[n [l|m]]|]; cbn [Handle.list_collection_names Handle.name].
    - by rewrite lookup_insert_ne, lookup_insert_eq by done.
    - by rewrite !(lookup_insert_ne _ _ "collections"), lookup_insert_eq by done.
    - by rewrite !(lookup_insert_ne _ _ "collections"), lookup_insert_eq by done. }
  split; [exact Hc|]. split.
  - eexists. split; [exact Hc|].
    destruct db as [[n [l|m]]|]; simpl; [rewrite length_take|..]; lia.
  - unfold test_database. rewrite !(lookup_insert_ne _ _ "connection_status") by done.
    destruct db as [[n [l|m]]|]; cbn [Handle.list_collection_names Handle.name];
      by rewrite ?(lookup_insert_ne _ _ "connection_status"), lookup_insert_eq by done.
Qed.
